(** * buildAxion: the configuration loader of the build bot (src/config.py)

    A shallow embedding of [config.py] and the properties of its layered
    loading: defaults, then a dotenv file, then the process environment.

    Conventions of the embedding.
    - A Python [str] is a [string]; its characters are the code points
      U+0000..U+00FF, one [ascii] each.  On that range [str.strip],
      [str.lower] and [int] are modelled exactly; code points above U+00FF
      are outside the model.
    - A [dict] is a [gmap], a [set] literal a [gset].
    - A call that can raise returns in [Exc]; [try]/[except Exception] is
      [try_except].  The interpreter's limit on the digits of a
      conversion between [int] and [str] is modelled at its default, 4300
      digits, which the module does not change.  Memory exhaustion and
      asynchronous interrupts are not modelled.
    - What the module reads from its surroundings (the process
      environment, the file system, the optional [dotenv] package, the
      CPU count) is a [Host]. *)

From Stdlib Require Import ZArith NArith Ascii String.
From Stdlib Require Import Decimal DecimalString DecimalZ.
From stdpp Require Import gmap strings list fin_maps.

Open Scope string_scope.
Open Scope Z_scope.

(** ** Python strings *)

(** [str.isspace] on one character: the code points the interpreter's
    Unicode table marks as whitespace, below U+0100. *)
Definition isspace (c : ascii) : bool :=
  let n := N_of_ascii c in
  ((9 <=? n) && (n <=? 13) || (28 <=? n) && (n <=? 32)
   || (n =? 133) || (n =? 160))%N.

(** [str.lstrip()] *)
Fixpoint lstrip (s : string) : string :=
  match s with
  | "" => ""
  | String c s' => if isspace c then lstrip s' else s
  end.

(** [str.rstrip()] *)
Fixpoint rstrip (s : string) : string :=
  match s with
  | "" => ""
  | String c s' =>
      match rstrip s' with
      | "" => if isspace c then "" else String c ""
      | r => String c r
      end
  end.

(** [str.strip()] *)
Definition strip (s : string) : string := rstrip (lstrip s).

(** Lower-casing of one code point: A-Z, and the upper-case letters of
    the Latin-1 block (U+00C0..U+00DE without the multiplication sign). *)
Definition lower_char (c : ascii) : ascii :=
  let n := N_of_ascii c in
  if ((65 <=? n) && (n <=? 90)
      || (192 <=? n) && (n <=? 222) && negb (n =? 215))%N
  then ascii_of_N (n + 32) else c.

(** [str.lower()] *)
Fixpoint lower (s : string) : string :=
  match s with
  | "" => ""
  | String c s' => String (lower_char c) (lower s')
  end.

(** A string made of whitespace only. *)
Fixpoint all_space (s : string) : bool :=
  match s with
  | "" => true
  | String c s' => isspace c && all_space s'
  end.

(** ** Exceptions *)

(** The exceptions the module can meet; all derive from [Exception]. *)
Inductive exception : Type :=
  | ValueError
  | OSError
  | UnicodeDecodeError
  | OtherException (name : string).

Inductive Exc (A : Type) : Type :=
  | Ok (a : A)
  | Raise (e : exception).
Arguments Ok {A} a.
Arguments Raise {A} e.

#[global] Instance Exc_ret : MRet Exc := λ A a, Ok a.
#[global] Instance Exc_bind : MBind Exc := λ A B f m,
  match m with Ok a => f a | Raise e => Raise e end.

(** [try: body except Exception: handler] *)
Definition try_except {A} (body : Exc A) (handler : exception → Exc A) : Exc A :=
  match body with
  | Ok a => Ok a
  | Raise e => handler e
  end.

(** ** [int(s)] and [str(n)] *)

Definition digit_value (c : ascii) : option Z :=
  let n := N_of_ascii c in
  if ((48 <=? n) && (n <=? 57))%N then Some (Z.of_N n - 48) else None.

(** The digits of an integer literal: a digit, then digits each
    optionally preceded by one underscore.  [acc] is the value read so
    far. *)
Fixpoint int_digits (acc : Z) (s : string) {struct s} : option Z :=
  match s with
  | "" => None
  | String c rest =>
      match digit_value c with
      | None => None
      | Some d =>
          let acc := 10 * acc + d in
          match rest with
          | "" => Some acc
          | String c' rest' =>
              if Ascii.eqb c' "_" then int_digits acc rest'
              else int_digits acc rest
          end
      end
  end.

(** The literal [int] reads in base 10: an optional sign and the
    digits. *)
Definition int_literal (s : string) : option Z :=
  match s with
  | String c rest =>
      if Ascii.eqb c "-" then Z.opp <$> int_digits 0 rest
      else if Ascii.eqb c "+" then int_digits 0 rest
      else int_digits 0 s
  | "" => None
  end.

(** [sys.get_int_max_str_digits()]: the most digits a conversion between
    [int] and [str] may have, at the interpreter's default. *)
Definition int_max_str_digits : Z := 4300.

(** The digits in a string; signs, underscores and whitespace do not
    count. *)
Fixpoint digit_count (s : string) : Z :=
  match s with
  | "" => 0
  | String c s' =>
      match digit_value c with Some _ => 1 | None => 0 end + digit_count s'
  end.

(** [int(s)] in base 10, for [s] without surrounding whitespace (the
    whitespace [int] itself skips is whitespace [str.strip] removes).
    Anything but a literal is a [ValueError], and so is a literal of more
    digits than the limit. *)
Definition py_int (s : string) : Exc Z :=
  match int_literal s with
  | Some n =>
      if int_max_str_digits <? digit_count s then Raise ValueError
      else Ok n
  | None => Raise ValueError
  end.

(** The decimal numeral of an integer, ["-"] first when negative. *)
Definition decimal_numeral (n : Z) : string :=
  NilZero.string_of_int (Z.to_int n).

(** [str(n)] for an [int]: its decimal numeral, or a [ValueError] when
    the numeral has more digits than the limit. *)
Definition py_str (n : Z) : Exc string :=
  let s := decimal_numeral n in
  if int_max_str_digits <? digit_count s then Raise ValueError
  else Ok s.

(** ** The coercion helpers *)

Definition truthy : gset string := {["1"; "true"; "yes"; "y"; "on"]}.
Definition falsy : gset string := {["0"; "false"; "no"; "n"; "off"]}.

(** [_to_bool(val, default)], lines 22-30. *)
Definition _to_bool (val : option string) (default : bool) : bool :=
  match val with
  | None => default
  | Some v =>
      let s := lower (strip v) in
      if bool_decide (s ∈ truthy) then true
      else if bool_decide (s ∈ falsy) then false
      else default
  end.

(** [_to_int(val, default)], lines 33-37. *)
Definition _to_int (val : option string) (default : Z) : Exc Z :=
  try_except
    (match val with
     | Some v => py_int (strip v)
     | None => Ok default
     end)
    (λ _, Ok default).

(** ** The record and its class-level defaults *)

(** The dataclass [BotConfig], lines 40-79. *)
Record BotConfig : Type := mkBotConfig {
  RUN_ENV_SETUP : bool;
  RUN_SOURCE_SYNC : bool;
  RUN_BUILD : bool;
  DRY_RUN : bool;
  AXION_REMOTE_URL : string;
  AXION_BRANCH : string;
  WORKDIR : string;
  THREADS : Z;
  WITH_MIUI_CAM : bool;
  APPLY_WPA_PATCHES : bool;
  BUILD_VOLUME_DEVICE : string;
  USE_SAFE_BUILD : bool;
  DEVICE : string;
  VARIANT : string;
  ROM_TYPE : string;
  CONFIG_OFFICIAL_FLAG : string;
  CONFIG_CHATID : string;
  CONFIG_BOT_TOKEN : string;
  CONFIG_ERROR_CHATID : string;
  RCLONE_REMOTE : string;
  RCLONE_FOLDER : string;
  PIXELDRAIN_API_KEY : string;
  POWEROFF : bool;
  UPLOAD_OTA_JSON : bool;
  OTA_JSON_PATH : string;
  PIN_SUCCESS_MESSAGE : bool;
  ENV_FILE : string;
}.

(** What [config.py] reads from outside itself. *)
Record Host : Type := mkHost {
  (** [os.environ] *)
  environ : gmap string string;
  (** [os.path.isfile] *)
  isfile : string → bool;
  (** [dotenv.dotenv_values], or [None] when the import at lines 16-19
      failed.  The parser belongs to the [python-dotenv] package: it is
      any function from a path to a mapping whose values may be [None],
      or to an exception. *)
  dotenv_values : option (string → Exc (gmap string (option string)));
  (** [os.cpu_count()] *)
  cpu_count : option Z;
}.

(** [x or y] on an optional string: [None] and [""] are false. *)
Definition or_else (x : option string) (y : option string) : option string :=
  match x with
  | Some s => if String.eqb s "" then y else x
  | None => y
  end.

(** [os.cpu_count() or 8], line 54. *)
Definition default_threads (h : Host) : Z :=
  match cpu_count h with
  | Some n => if n =? 0 then 8 else n
  | None => 8
  end.

(** The class attributes of [BotConfig]: the static defaults. *)
Definition cls (h : Host) : BotConfig := {|
  RUN_ENV_SETUP := true;
  RUN_SOURCE_SYNC := true;
  RUN_BUILD := false;
  DRY_RUN := false;
  AXION_REMOTE_URL := "https://github.com/AxionAOSP/android.git";
  AXION_BRANCH := "lineage-23.0";
  WORKDIR := "axionos";
  THREADS := default_threads h;
  WITH_MIUI_CAM := false;
  APPLY_WPA_PATCHES := false;
  BUILD_VOLUME_DEVICE := "";
  USE_SAFE_BUILD := true;
  DEVICE := "xaga";
  VARIANT := "userdebug";
  ROM_TYPE := "axion-pico";
  CONFIG_OFFICIAL_FLAG := "";
  CONFIG_CHATID := "";
  CONFIG_BOT_TOKEN := "";
  CONFIG_ERROR_CHATID := "";
  RCLONE_REMOTE := "";
  RCLONE_FOLDER := "";
  PIXELDRAIN_API_KEY := "";
  POWEROFF := false;
  UPLOAD_OTA_JSON := true;
  OTA_JSON_PATH := "vendor/ota/your_device_name.json";
  PIN_SUCCESS_MESSAGE := true;
  ENV_FILE := ".env";
|}.

(** ** [BotConfig.load] *)

(** [dict.get(key, default)] *)
Definition get (m : gmap string string) (key : string) (dflt : string) : string :=
  default dflt (m !! key).

(** Line 85: [env_file or os.environ.get("ENV_FILE") or ".env"]; the
    last operand is a string that is not empty, so the result is one. *)
Definition first_path (h : Host) (env_file : option string) : string :=
  default ".env" (or_else (or_else env_file (environ h !! "ENV_FILE")) (Some ".env")).

(** Lines 85-89: the path of the dotenv file, with the fallback to
    [".env_xaga"]. *)
Definition resolve_path (h : Host) (env_file : option string) : string :=
  let env_path := first_path h env_file in
  if negb (isfile h env_path) && isfile h ".env_xaga" then ".env_xaga"
  else env_path.

(** Lines 91-97: the values of the file, when the parser is there and
    the file exists; the entries whose value is [None] are left out. *)
Definition read_file (h : Host) (env_path : string)
    (merged : gmap string string) : Exc (gmap string string) :=
  match dotenv_values h with
  | Some parse =>
      if isfile h env_path then
        try_except
          (file_vals ← parse env_path;
           mret (omap id file_vals ∪ merged))
          (λ _, mret merged)
      else mret merged
  | None => mret merged
  end.

(** Lines 99-101: [for k, v in os.environ.items(): merged[k] = v]. *)
Definition overlay_environ (h : Host) (merged : gmap string string)
    : gmap string string :=
  map_fold (λ k v m, <[k:=v]> m) merged (environ h).

(** Lines 84-101: the merged mapping. *)
Definition merge_sources (h : Host) (env_path : string)
    : Exc (gmap string string) :=
  merged ← read_file h env_path ∅;
  mret (overlay_environ h merged).

(** Lines 103-132: the coercion of every field. *)
Definition coerce (h : Host) (merged : gmap string string)
    (env_path : string) : Exc BotConfig :=
  threads ← _to_int (merged !! "THREADS") (THREADS (cls h));
  mret {|
    RUN_ENV_SETUP := _to_bool (merged !! "RUN_ENV_SETUP") true;
    RUN_SOURCE_SYNC := _to_bool (merged !! "RUN_SOURCE_SYNC") true;
    RUN_BUILD := _to_bool (merged !! "RUN_BUILD") false;
    DRY_RUN := _to_bool (merged !! "DRY_RUN") false;
    AXION_REMOTE_URL := get merged "AXION_REMOTE_URL" (AXION_REMOTE_URL (cls h));
    AXION_BRANCH := get merged "AXION_BRANCH" (AXION_BRANCH (cls h));
    WORKDIR := get merged "WORKDIR" (WORKDIR (cls h));
    THREADS := threads;
    WITH_MIUI_CAM := _to_bool (merged !! "WITH_MIUI_CAM") false;
    APPLY_WPA_PATCHES := _to_bool (merged !! "APPLY_WPA_PATCHES") false;
    BUILD_VOLUME_DEVICE := get merged "BUILD_VOLUME_DEVICE" (BUILD_VOLUME_DEVICE (cls h));
    USE_SAFE_BUILD := _to_bool (merged !! "USE_SAFE_BUILD") true;
    DEVICE := get merged "DEVICE" (DEVICE (cls h));
    VARIANT := get merged "VARIANT" (VARIANT (cls h));
    ROM_TYPE := get merged "ROM_TYPE" (ROM_TYPE (cls h));
    CONFIG_OFFICIAL_FLAG := get merged "CONFIG_OFFICIAL_FLAG" (CONFIG_OFFICIAL_FLAG (cls h));
    CONFIG_CHATID := get merged "CONFIG_CHATID" (CONFIG_CHATID (cls h));
    CONFIG_BOT_TOKEN := get merged "CONFIG_BOT_TOKEN" (CONFIG_BOT_TOKEN (cls h));
    CONFIG_ERROR_CHATID := get merged "CONFIG_ERROR_CHATID" (CONFIG_ERROR_CHATID (cls h));
    RCLONE_REMOTE := get merged "RCLONE_REMOTE" (RCLONE_REMOTE (cls h));
    RCLONE_FOLDER := get merged "RCLONE_FOLDER" (RCLONE_FOLDER (cls h));
    PIXELDRAIN_API_KEY := get merged "PIXELDRAIN_API_KEY" (PIXELDRAIN_API_KEY (cls h));
    POWEROFF := _to_bool (merged !! "POWEROFF") false;
    UPLOAD_OTA_JSON := _to_bool (merged !! "UPLOAD_OTA_JSON") true;
    OTA_JSON_PATH := get merged "OTA_JSON_PATH" (OTA_JSON_PATH (cls h));
    PIN_SUCCESS_MESSAGE := _to_bool (merged !! "PIN_SUCCESS_MESSAGE") true;
    ENV_FILE := env_path;
  |}.

(** [BotConfig.load(env_file)], lines 81-132. *)
Definition load (h : Host) (env_file : option string) : Exc BotConfig :=
  let env_path := resolve_path h env_file in
  merged ← merge_sources h env_path;
  coerce h merged env_path.

(** ** The methods of a record *)

(** [to_script_env(self)], lines 134-144: the dict literal, key by key.
    [str(self.THREADS)] on line 140 is the one call that can raise, and
    nothing catches it. *)
Definition to_script_env (self : BotConfig) : Exc (gmap string string) :=
  threads ← py_str (THREADS self);
  mret (<["BUILD_VOLUME_DEVICE" := BUILD_VOLUME_DEVICE self]>
       (<["APPLY_WPA_PATCHES" :=
            if APPLY_WPA_PATCHES self then "true" else "false"]>
       (<["WITH_MIUI_CAM" := if WITH_MIUI_CAM self then "true" else "false"]>
       (<["THREADS" := threads]>
       (<["WORKDIR" := WORKDIR self]>
       (<["AXION_BRANCH" := AXION_BRANCH self]>
       (<["AXION_REMOTE_URL" := AXION_REMOTE_URL self]> ∅))))))).

(** A Python value as a field of a record can hold it. *)
Inductive value : Type :=
  | VNone
  | VBool (b : bool)
  | VInt (n : Z)
  | VStr (s : string).

(** [as_dict(self)], lines 146-147: [dataclasses.asdict] copies every
    field, in the order of the class body, into a new dict. *)
Definition as_dict (self : BotConfig) : list (string * value) :=
  [ ("RUN_ENV_SETUP", VBool (RUN_ENV_SETUP self));
    ("RUN_SOURCE_SYNC", VBool (RUN_SOURCE_SYNC self));
    ("RUN_BUILD", VBool (RUN_BUILD self));
    ("DRY_RUN", VBool (DRY_RUN self));
    ("AXION_REMOTE_URL", VStr (AXION_REMOTE_URL self));
    ("AXION_BRANCH", VStr (AXION_BRANCH self));
    ("WORKDIR", VStr (WORKDIR self));
    ("THREADS", VInt (THREADS self));
    ("WITH_MIUI_CAM", VBool (WITH_MIUI_CAM self));
    ("APPLY_WPA_PATCHES", VBool (APPLY_WPA_PATCHES self));
    ("BUILD_VOLUME_DEVICE", VStr (BUILD_VOLUME_DEVICE self));
    ("USE_SAFE_BUILD", VBool (USE_SAFE_BUILD self));
    ("DEVICE", VStr (DEVICE self));
    ("VARIANT", VStr (VARIANT self));
    ("ROM_TYPE", VStr (ROM_TYPE self));
    ("CONFIG_OFFICIAL_FLAG", VStr (CONFIG_OFFICIAL_FLAG self));
    ("CONFIG_CHATID", VStr (CONFIG_CHATID self));
    ("CONFIG_BOT_TOKEN", VStr (CONFIG_BOT_TOKEN self));
    ("CONFIG_ERROR_CHATID", VStr (CONFIG_ERROR_CHATID self));
    ("RCLONE_REMOTE", VStr (RCLONE_REMOTE self));
    ("RCLONE_FOLDER", VStr (RCLONE_FOLDER self));
    ("PIXELDRAIN_API_KEY", VStr (PIXELDRAIN_API_KEY self));
    ("POWEROFF", VBool (POWEROFF self));
    ("UPLOAD_OTA_JSON", VBool (UPLOAD_OTA_JSON self));
    ("OTA_JSON_PATH", VStr (OTA_JSON_PATH self));
    ("PIN_SUCCESS_MESSAGE", VBool (PIN_SUCCESS_MESSAGE self));
    ("ENV_FILE", VStr (ENV_FILE self)) ].

(** The annotation of every field in the class body, lines 43-79. *)
Inductive annotation : Type := Tbool | Tint | Tstr.

Definition annotations : list (string * annotation) :=
  [ ("RUN_ENV_SETUP", Tbool); ("RUN_SOURCE_SYNC", Tbool); ("RUN_BUILD", Tbool);
    ("DRY_RUN", Tbool); ("AXION_REMOTE_URL", Tstr); ("AXION_BRANCH", Tstr);
    ("WORKDIR", Tstr); ("THREADS", Tint); ("WITH_MIUI_CAM", Tbool);
    ("APPLY_WPA_PATCHES", Tbool); ("BUILD_VOLUME_DEVICE", Tstr);
    ("USE_SAFE_BUILD", Tbool); ("DEVICE", Tstr); ("VARIANT", Tstr);
    ("ROM_TYPE", Tstr); ("CONFIG_OFFICIAL_FLAG", Tstr); ("CONFIG_CHATID", Tstr);
    ("CONFIG_BOT_TOKEN", Tstr); ("CONFIG_ERROR_CHATID", Tstr);
    ("RCLONE_REMOTE", Tstr); ("RCLONE_FOLDER", Tstr);
    ("PIXELDRAIN_API_KEY", Tstr); ("POWEROFF", Tbool);
    ("UPLOAD_OTA_JSON", Tbool); ("OTA_JSON_PATH", Tstr);
    ("PIN_SUCCESS_MESSAGE", Tbool); ("ENV_FILE", Tstr) ].


(** ** Objects at run time

    At run time a record is an object on the heap: a list of attributes
    that hold Python values of any type, [None] among them.  The
    operations of the class are written over the heap: each takes the
    heap and gives back the heap it leaves, with its result or the
    exception it raised.  The merged dict is the dict the interpreter
    holds: its values are what was put in it, a [str] or [None]. *)
Module Heap.

(** An instance: its attributes, in the order [__init__] sets them. *)
Definition object : Type := list (string * value).

(** The objects made so far; an object's address is its position. *)
Definition heap : Type := list object.

(** [getattr(o, name)] *)
Fixpoint getattr (o : object) (name : string) : Exc value :=
  match o with
  | [] => Raise (OtherException "AttributeError")
  | (k, v) :: o' => if String.eqb k name then Ok v else getattr o' name
  end.

(** [str(v)] *)
Definition str (v : value) : Exc string :=
  match v with
  | VNone => Ok "None"
  | VBool b => Ok (if b then "True" else "False")
  | VInt n => py_str n
  | VStr s => Ok s
  end.

(** The truth value of [v], as [x if v else y] tests it. *)
Definition truth (v : value) : bool :=
  match v with
  | VNone => false
  | VBool b => b
  | VInt n => negb (n =? 0)
  | VStr s => negb (String.eqb s "")
  end.

(** Lines 91-97, with the comprehension of line 94 as a filter. *)
Definition read_file (h : Host) (env_path : string)
    (merged : gmap string (option string))
    : Exc (gmap string (option string)) :=
  match dotenv_values h with
  | Some parse =>
      if isfile h env_path then
        try_except
          (file_vals ← parse env_path;
           mret (filter (λ kv, kv.2 ≠ None) file_vals ∪ merged))
          (λ _, mret merged)
      else mret merged
  | None => mret merged
  end.

(** Lines 99-101. *)
Definition overlay_environ (h : Host) (merged : gmap string (option string))
    : gmap string (option string) :=
  map_fold (λ k v m, <[k := Some v]> m) merged (environ h).

(** Lines 84-101. *)
Definition merge_sources (h : Host) (env_path : string)
    : Exc (gmap string (option string)) :=
  merged ← read_file h env_path ∅;
  mret (overlay_environ h merged).

(** [merged.get(key)]: the value, [None] when the key is absent. *)
Definition get (merged : gmap string (option string)) (key : string)
    : option string :=
  mjoin (merged !! key).

(** [merged.get(key, default)]: the value, whatever it is, when the key
    is there. *)
Definition get_default (merged : gmap string (option string))
    (key : string) (dflt : string) : value :=
  match merged !! key with
  | Some (Some s) => VStr s
  | Some None => VNone
  | None => VStr dflt
  end.

(** Lines 103-131: the keyword arguments of [cls(...)]. *)
Definition kwargs (h : Host) (merged : gmap string (option string))
    (env_path : string) : Exc object :=
  threads ← _to_int (get merged "THREADS") (THREADS (cls h));
  mret
    [ ("RUN_ENV_SETUP", VBool (_to_bool (get merged "RUN_ENV_SETUP") true));
      ("RUN_SOURCE_SYNC", VBool (_to_bool (get merged "RUN_SOURCE_SYNC") true));
      ("RUN_BUILD", VBool (_to_bool (get merged "RUN_BUILD") false));
      ("DRY_RUN", VBool (_to_bool (get merged "DRY_RUN") false));
      ("AXION_REMOTE_URL",
         get_default merged "AXION_REMOTE_URL" (AXION_REMOTE_URL (cls h)));
      ("AXION_BRANCH", get_default merged "AXION_BRANCH" (AXION_BRANCH (cls h)));
      ("WORKDIR", get_default merged "WORKDIR" (WORKDIR (cls h)));
      ("THREADS", VInt threads);
      ("WITH_MIUI_CAM", VBool (_to_bool (get merged "WITH_MIUI_CAM") false));
      ("APPLY_WPA_PATCHES",
         VBool (_to_bool (get merged "APPLY_WPA_PATCHES") false));
      ("BUILD_VOLUME_DEVICE",
         get_default merged "BUILD_VOLUME_DEVICE" (BUILD_VOLUME_DEVICE (cls h)));
      ("USE_SAFE_BUILD", VBool (_to_bool (get merged "USE_SAFE_BUILD") true));
      ("DEVICE", get_default merged "DEVICE" (DEVICE (cls h)));
      ("VARIANT", get_default merged "VARIANT" (VARIANT (cls h)));
      ("ROM_TYPE", get_default merged "ROM_TYPE" (ROM_TYPE (cls h)));
      ("CONFIG_OFFICIAL_FLAG",
         get_default merged "CONFIG_OFFICIAL_FLAG" (CONFIG_OFFICIAL_FLAG (cls h)));
      ("CONFIG_CHATID",
         get_default merged "CONFIG_CHATID" (CONFIG_CHATID (cls h)));
      ("CONFIG_BOT_TOKEN",
         get_default merged "CONFIG_BOT_TOKEN" (CONFIG_BOT_TOKEN (cls h)));
      ("CONFIG_ERROR_CHATID",
         get_default merged "CONFIG_ERROR_CHATID" (CONFIG_ERROR_CHATID (cls h)));
      ("RCLONE_REMOTE",
         get_default merged "RCLONE_REMOTE" (RCLONE_REMOTE (cls h)));
      ("RCLONE_FOLDER",
         get_default merged "RCLONE_FOLDER" (RCLONE_FOLDER (cls h)));
      ("PIXELDRAIN_API_KEY",
         get_default merged "PIXELDRAIN_API_KEY" (PIXELDRAIN_API_KEY (cls h)));
      ("POWEROFF", VBool (_to_bool (get merged "POWEROFF") false));
      ("UPLOAD_OTA_JSON", VBool (_to_bool (get merged "UPLOAD_OTA_JSON") true));
      ("OTA_JSON_PATH",
         get_default merged "OTA_JSON_PATH" (OTA_JSON_PATH (cls h)));
      ("PIN_SUCCESS_MESSAGE",
         VBool (_to_bool (get merged "PIN_SUCCESS_MESSAGE") true));
      ("ENV_FILE", VStr env_path) ].

(** [__init__], as the decorator of line 40 writes it: a new instance
    gets every field from the arguments.  It is the one place of the
    class that writes an attribute. *)
Definition init (hp : heap) (args : object) : heap * nat :=
  ((hp ++ [args])%list, length hp).

(** [BotConfig.load(env_file)], lines 81-132: the address of the new
    record. *)
Definition load (hp : heap) (h : Host) (env_file : option string)
    : heap * Exc nat :=
  let env_path := resolve_path h env_file in
  match merged ← merge_sources h env_path; kwargs h merged env_path with
  | Ok args => let '(hp', self) := init hp args in (hp', Ok self)
  | Raise e => (hp, Raise e)
  end.

(** [to_script_env(self)], lines 134-144. *)
Definition to_script_env (hp : heap) (self : nat)
    : heap * Exc (gmap string value) :=
  (hp,
   match hp !! self with
   | None => Raise (OtherException "no such object")
   | Some o =>
       url ← getattr o "AXION_REMOTE_URL";
       branch ← getattr o "AXION_BRANCH";
       workdir ← getattr o "WORKDIR";
       threads ← getattr o "THREADS";
       threads ← str threads;
       cam ← getattr o "WITH_MIUI_CAM";
       wpa ← getattr o "APPLY_WPA_PATCHES";
       volume ← getattr o "BUILD_VOLUME_DEVICE";
       mret (<["BUILD_VOLUME_DEVICE" := volume]>
            (<["APPLY_WPA_PATCHES" :=
                 VStr (if truth wpa then "true" else "false")]>
            (<["WITH_MIUI_CAM" := VStr (if truth cam then "true" else "false")]>
            (<["THREADS" := VStr threads]>
            (<["WORKDIR" := workdir]>
            (<["AXION_BRANCH" := branch]>
            (<["AXION_REMOTE_URL" := url]> ∅)))))))
   end).

(** [as_dict(self)], lines 146-147: [asdict] reads every field of the
    class, in order, into a new dict. *)
Definition as_dict (hp : heap) (self : nat) : heap * Exc object :=
  (hp,
   match hp !! self with
   | None => Raise (OtherException "no such object")
   | Some o =>
       mapM (λ field, v ← getattr o field.1; mret (field.1, v)) annotations
   end).




End Heap.


(** * The notions the properties are stated with *)

(** ** Integer literals *)

(** The digits of a base-10 literal with the values they stand for: one
    digit, or a digit followed by more, with or without one underscore
    between them. *)
Inductive digits10 : string → list Z → Prop :=
  | digits10_last c d :
      digit_value c = Some d → digits10 (String c "") [d]
  | digits10_next c d s ds :
      digit_value c = Some d → digits10 s ds →
      digits10 (String c s) (d :: ds)
  | digits10_sep c d s ds :
      digit_value c = Some d → digits10 s ds →
      digits10 (String c (String "_" s)) (d :: ds).

(** The number a sequence of decimal digits denotes, most significant
    digit first. *)
Definition decimal (acc : Z) (ds : list Z) : Z :=
  foldl (λ a d, 10 * a + d) acc ds.

Inductive sign_prefix : string → Z → Prop :=
  | sign_none : sign_prefix "" 1
  | sign_plus : sign_prefix "+" 1
  | sign_minus : sign_prefix "-" (-1).

(** [base10_literal s n]: [s] reads as the base-10 integer [n], that is,
    whitespace, an optional sign, digits, whitespace. *)
Inductive base10_literal : string → Z → Prop :=
  | base10_literal_intro pad1 sign sg body ds pad2 :
      all_space pad1 = true → all_space pad2 = true →
      sign_prefix sign sg → digits10 body ds →
      base10_literal (pad1 ++ (sign ++ body) ++ pad2) (sg * decimal 0 ds).


(** The number of decimal digits of [n]. *)
Definition decimal_digits (n : Z) : Z := digit_count (decimal_numeral n).

(** The value of a numeral of the standard library read after [acc]. *)
Fixpoint uint_value (acc : Z) (d : uint) : Z :=
  match d with
  | Nil => acc
  | D0 l => uint_value (10 * acc + 0) l
  | D1 l => uint_value (10 * acc + 1) l
  | D2 l => uint_value (10 * acc + 2) l
  | D3 l => uint_value (10 * acc + 3) l
  | D4 l => uint_value (10 * acc + 4) l
  | D5 l => uint_value (10 * acc + 5) l
  | D6 l => uint_value (10 * acc + 6) l
  | D7 l => uint_value (10 * acc + 7) l
  | D8 l => uint_value (10 * acc + 8) l
  | D9 l => uint_value (10 * acc + 9) l
  end.

(** ** Boolean words *)

(** [v] is one of [words] when case is ignored. *)
Definition matches_ignoring_case (v : string) (words : gset string) : Prop :=
  lower v ∈ words.

(** [v] is one of [words] when case and surrounding whitespace are
    ignored. *)
Definition matches_padded (v : string) (words : gset string) : Prop :=
  ∃ pad1 u pad2, v = pad1 ++ u ++ pad2
    ∧ all_space pad1 = true ∧ all_space pad2 = true
    ∧ matches_ignoring_case u words.

(** ** The fields, by kind *)

(** The boolean fields: the key [load] looks up and the attribute it
    sets. *)
Definition bool_fields : list (string * (BotConfig → bool)) :=
  [ ("RUN_ENV_SETUP", RUN_ENV_SETUP); ("RUN_SOURCE_SYNC", RUN_SOURCE_SYNC);
    ("RUN_BUILD", RUN_BUILD); ("DRY_RUN", DRY_RUN);
    ("WITH_MIUI_CAM", WITH_MIUI_CAM); ("APPLY_WPA_PATCHES", APPLY_WPA_PATCHES);
    ("USE_SAFE_BUILD", USE_SAFE_BUILD); ("POWEROFF", POWEROFF);
    ("UPLOAD_OTA_JSON", UPLOAD_OTA_JSON);
    ("PIN_SUCCESS_MESSAGE", PIN_SUCCESS_MESSAGE) ].

(** The string fields read from the merged mapping. *)
Definition str_fields : list (string * (BotConfig → string)) :=
  [ ("AXION_REMOTE_URL", AXION_REMOTE_URL); ("AXION_BRANCH", AXION_BRANCH);
    ("WORKDIR", WORKDIR); ("BUILD_VOLUME_DEVICE", BUILD_VOLUME_DEVICE);
    ("DEVICE", DEVICE); ("VARIANT", VARIANT); ("ROM_TYPE", ROM_TYPE);
    ("CONFIG_OFFICIAL_FLAG", CONFIG_OFFICIAL_FLAG);
    ("CONFIG_CHATID", CONFIG_CHATID); ("CONFIG_BOT_TOKEN", CONFIG_BOT_TOKEN);
    ("CONFIG_ERROR_CHATID", CONFIG_ERROR_CHATID);
    ("RCLONE_REMOTE", RCLONE_REMOTE); ("RCLONE_FOLDER", RCLONE_FOLDER);
    ("PIXELDRAIN_API_KEY", PIXELDRAIN_API_KEY);
    ("OTA_JSON_PATH", OTA_JSON_PATH) ].


(** [cfg] with another [THREADS], as [dataclasses.replace] or the
    constructor called directly give it. *)
Definition with_threads (cfg : BotConfig) (n : Z) : BotConfig :=
  mkBotConfig
    (RUN_ENV_SETUP cfg) (RUN_SOURCE_SYNC cfg) (RUN_BUILD cfg) (DRY_RUN cfg)
    (AXION_REMOTE_URL cfg) (AXION_BRANCH cfg) (WORKDIR cfg) n
    (WITH_MIUI_CAM cfg) (APPLY_WPA_PATCHES cfg) (BUILD_VOLUME_DEVICE cfg)
    (USE_SAFE_BUILD cfg) (DEVICE cfg) (VARIANT cfg) (ROM_TYPE cfg)
    (CONFIG_OFFICIAL_FLAG cfg) (CONFIG_CHATID cfg) (CONFIG_BOT_TOKEN cfg)
    (CONFIG_ERROR_CHATID cfg) (RCLONE_REMOTE cfg) (RCLONE_FOLDER cfg)
    (PIXELDRAIN_API_KEY cfg) (POWEROFF cfg) (UPLOAD_OTA_JSON cfg)
    (OTA_JSON_PATH cfg) (PIN_SUCCESS_MESSAGE cfg) (ENV_FILE cfg).

(** The record with another [CONFIG_BOT_TOKEN]. *)
Definition with_bot_token (cfg : BotConfig) (token : string) : BotConfig :=
  mkBotConfig
    (RUN_ENV_SETUP cfg) (RUN_SOURCE_SYNC cfg) (RUN_BUILD cfg) (DRY_RUN cfg)
    (AXION_REMOTE_URL cfg) (AXION_BRANCH cfg) (WORKDIR cfg) (THREADS cfg)
    (WITH_MIUI_CAM cfg) (APPLY_WPA_PATCHES cfg) (BUILD_VOLUME_DEVICE cfg)
    (USE_SAFE_BUILD cfg) (DEVICE cfg) (VARIANT cfg) (ROM_TYPE cfg)
    (CONFIG_OFFICIAL_FLAG cfg) (CONFIG_CHATID cfg) token
    (CONFIG_ERROR_CHATID cfg) (RCLONE_REMOTE cfg) (RCLONE_FOLDER cfg)
    (PIXELDRAIN_API_KEY cfg) (POWEROFF cfg) (UPLOAD_OTA_JSON cfg)
    (OTA_JSON_PATH cfg) (PIN_SUCCESS_MESSAGE cfg) (ENV_FILE cfg).

(** ** Sources of the merged mapping *)

(** The file gives nothing: the parser is missing, the file is missing,
    or the parser raises on it. *)
Definition file_unusable (h : Host) (env_path : string) : Prop :=
  dotenv_values h = None
  ∨ isfile h env_path = false
  ∨ ∃ parse e, dotenv_values h = Some parse ∧ parse env_path = Raise e.

(** [h] with another parser. *)
Definition with_dotenv (h : Host)
    (d : option (string → Exc (gmap string (option string)))) : Host :=
  {| environ := environ h; isfile := isfile h;
     dotenv_values := d; cpu_count := cpu_count h |}.

(** ** Statements of the specification that the code does not follow *)

(** The boolean coercion in the specification's words: a match up to
    case with one of the two sets, and the default otherwise. *)
Definition to_bool_as_stated (val : option string) (default : bool) : bool :=
  match val with
  | None => default
  | Some v =>
      if bool_decide (lower v ∈ truthy) then true
      else if bool_decide (lower v ∈ falsy) then false
      else default
  end.

(** The fallback in the specification's words: the secondary file is
    used in place of the path first chosen only if the default file
    [".env"] is absent and the secondary file exists. *)
Definition fallback_as_stated (h : Host) (env_file : option string) : Prop :=
  resolve_path h env_file = ".env_xaga" →
  first_path h env_file ≠ ".env_xaga" →
  isfile h ".env" = false ∧ isfile h ".env_xaga" = true.

(** ** Hosts for the examples *)

(** No parser, no file, an environment with one padded flag. *)
Definition host_padded_flag : Host :=
  {| environ := {["RUN_BUILD" := " true "]};
     isfile := λ _, false;
     dotenv_values := None;
     cpu_count := Some 4 |}.

(** Both [".env"] and [".env_xaga"] exist, nothing else does. *)
Definition host_both_files : Host :=
  {| environ := ∅;
     isfile := λ p, String.eqb p ".env" || String.eqb p ".env_xaga";
     dotenv_values := Some (λ _, Ok ∅);
     cpu_count := Some 4 |}.

(** A file and an environment that disagree on [WORKDIR]; the file also
    lists [DEVICE] without a value. *)
Definition host_conflict : Host :=
  {| environ := {["WORKDIR" := "from_env"]};
     isfile := λ p, String.eqb p ".env";
     dotenv_values :=
       Some (λ _, Ok (<["WORKDIR" := Some "from_file"]>
                      (<["DEVICE" := None]>
                      (<["THREADS" := Some " 42 "]> ∅))));
     cpu_count := Some 4 |}.

(** Nothing at all: no file, no variable, no parser, no CPU count. *)
Definition host_bare : Host :=
  {| environ := ∅; isfile := λ _, false;
     dotenv_values := None; cpu_count := None |}.


(** ** Hosts that differ in one source *)


(** The keys [load] looks up in the merged mapping, lines 104-129, in
    the order of the call. *)
Definition field_keys : list string :=
  [ "RUN_ENV_SETUP"; "RUN_SOURCE_SYNC"; "RUN_BUILD"; "DRY_RUN";
    "AXION_REMOTE_URL"; "AXION_BRANCH"; "WORKDIR"; "THREADS";
    "WITH_MIUI_CAM"; "APPLY_WPA_PATCHES"; "BUILD_VOLUME_DEVICE";
    "USE_SAFE_BUILD"; "DEVICE"; "VARIANT"; "ROM_TYPE";
    "CONFIG_OFFICIAL_FLAG"; "CONFIG_CHATID"; "CONFIG_BOT_TOKEN";
    "CONFIG_ERROR_CHATID"; "RCLONE_REMOTE"; "RCLONE_FOLDER";
    "PIXELDRAIN_API_KEY"; "POWEROFF"; "UPLOAD_OTA_JSON"; "OTA_JSON_PATH";
    "PIN_SUCCESS_MESSAGE" ].

(** A file with good values for [RUN_BUILD] and [THREADS], and an
    environment that sets both to something unreadable. *)
Definition host_masked : Host :=
  {| environ := <["RUN_BUILD" := "maybe"]> {["THREADS" := "many"]};
     isfile := λ p, String.eqb p ".env";
     dotenv_values :=
       Some (λ _, Ok (<["RUN_BUILD" := Some "true"]>
                      {["THREADS" := Some "16"]}));
     cpu_count := Some 4 |}.

(** The environment a script started with [to_script_env] of the class
    defaults sees, on a machine without a file. *)
Definition host_script_env : Host :=
  {| environ := match to_script_env (cls host_bare) with
                | Ok env => env
                | Raise _ => ∅
                end;
     isfile := λ _, false;
     dotenv_values := None;
     cpu_count := Some 2 |}.

(** The entries the file adds to the merged mapping, lines 91-97: those
    with a value, when the parser is there, the file exists and the
    parser returns; none otherwise. *)
Definition file_part (h : Host) (env_path : string) : gmap string string :=
  match dotenv_values h with
  | Some parse =>
      if isfile h env_path then
        match parse env_path with
        | Ok file_vals => omap id file_vals
        | Raise _ => ∅
        end
      else ∅
  | None => ∅
  end.

(** * Properties *)

(** ** The definitions at work *)

Example strip_inner_space : strip "  a b  " = "a b".
Proof. reflexivity. Qed.

Example lower_mixed : lower "YeS" = "yes".
Proof. reflexivity. Qed.

Example py_int_underscore : py_int "1_000" = Ok 1000.
Proof. reflexivity. Qed.

Example py_int_signed_zeros : py_int "-007" = Ok (-7).
Proof. reflexivity. Qed.

Example py_int_double_underscore : py_int "1__0" = Raise ValueError.
Proof. reflexivity. Qed.

Example py_int_trailing_underscore : py_int "10_" = Raise ValueError.
Proof. reflexivity. Qed.

Example py_int_hex : py_int "0x10" = Raise ValueError.
Proof. reflexivity. Qed.

Example py_int_empty : py_int "" = Raise ValueError.
Proof. reflexivity. Qed.

Example py_str_negative : py_str (-120) = Ok "-120".
Proof. reflexivity. Qed.

Example to_bool_on : _to_bool (Some "On") false = true.
Proof. by vm_compute. Qed.

Example to_bool_unknown : _to_bool (Some "maybe") true = true.
Proof. by vm_compute. Qed.

Example to_int_garbage : _to_int (Some "eight") 8 = Ok 8.
Proof. by vm_compute. Qed.

Example load_conflict :
  ∃ cfg, load host_conflict None = Ok cfg
    ∧ WORKDIR cfg = "from_env" ∧ DEVICE cfg = "xaga" ∧ THREADS cfg = 42
    ∧ ENV_FILE cfg = ".env".
Proof. eexists. split; [by vm_compute | done]. Qed.

(** ** Strings and whitespace *)

Lemma string_app_nil (t : string) : "" ++ t = t.
Proof. reflexivity. Qed.

Lemma string_app_cons (c : ascii) (s t : string) :
  String c s ++ t = String c (s ++ t).
Proof. reflexivity. Qed.

Ltac sapp := rewrite ?string_app_cons, ?string_app_nil in *.

Lemma string_app_assoc (a b c : string) : (a ++ b) ++ c = a ++ (b ++ c).
Proof. induction a as [|x a IH]; sapp; [reflexivity | by f_equal]. Qed.

Lemma string_app_empty_r (a : string) : a ++ "" = a.
Proof. induction a as [|x a IH]; sapp; [reflexivity | by f_equal]. Qed.

Lemma all_space_app (a b : string) :
  all_space (a ++ b) = all_space a && all_space b.
Proof.
  induction a as [|x a IH]; sapp; simpl; [reflexivity |].
  rewrite IH. by rewrite andb_assoc.
Qed.

Lemma lstrip_all_space (p : string) : all_space p = true → lstrip p = "".
Proof.
  induction p as [|c p IH]; simpl; [reflexivity |].
  intros [Hc Hp]%andb_true_iff. rewrite Hc. by apply IH.
Qed.

Lemma rstrip_all_space (p : string) : all_space p = true → rstrip p = "".
Proof.
  induction p as [|c p IH]; simpl; [reflexivity |].
  intros [Hc Hp]%andb_true_iff. rewrite (IH Hp). by rewrite Hc.
Qed.

Lemma lstrip_app_space (p s : string) :
  all_space p = true → lstrip (p ++ s) = lstrip s.
Proof.
  induction p as [|c p IH]; sapp; simpl; [reflexivity |].
  intros [Hc Hp]%andb_true_iff. rewrite Hc. by apply IH.
Qed.

Lemma rstrip_app_space (s p : string) :
  all_space p = true → rstrip (s ++ p) = rstrip s.
Proof.
  intros Hp. induction s as [|c s IH]; sapp; simpl.
  - by apply rstrip_all_space.
  - by rewrite IH.
Qed.

(** What [lstrip] removes is whitespace at the front. *)
Lemma lstrip_decompose (s : string) :
  ∃ p, s = p ++ lstrip s ∧ all_space p = true.
Proof.
  induction s as [|c s (p & Hs & Hp)]; simpl.
  - by exists "".
  - destruct (isspace c) eqn:Hc.
    + exists (String c p). sapp. simpl. rewrite Hc, Hp. by rewrite <- Hs.
    + by exists "".
Qed.

(** What [rstrip] removes is whitespace at the end. *)
Lemma rstrip_decompose (s : string) :
  ∃ p, s = rstrip s ++ p ∧ all_space p = true.
Proof.
  induction s as [|c s (p & Hs & Hp)]; simpl.
  - by exists "".
  - destruct (rstrip s) as [|c' r] eqn:Hr.
    + sapp. subst p. destruct (isspace c) eqn:Hc.
      * exists (String c s). sapp. simpl. by rewrite Hc, Hp.
      * by exists s.
    + exists p. sapp. split; [| done]. f_equal. exact Hs.
Qed.

Lemma strip_decompose (s : string) :
  ∃ p1 p2, s = p1 ++ strip s ++ p2
           ∧ all_space p1 = true ∧ all_space p2 = true.
Proof.
  destruct (lstrip_decompose s) as (p1 & H1 & Hp1).
  destruct (rstrip_decompose (lstrip s)) as (p2 & H2 & Hp2).
  exists p1, p2. unfold strip. by rewrite <- H2, <- H1.
Qed.

Lemma strip_lstrip_app_space (s p : string) :
  all_space p = true → rstrip (lstrip (s ++ p)) = rstrip (lstrip s).
Proof.
  intros Hp. induction s as [|c s IH]; sapp; simpl.
  - by rewrite (lstrip_all_space p Hp).
  - destruct (isspace c); [exact IH |].
    rewrite <- string_app_cons. by apply rstrip_app_space.
Qed.

(** Padding a value with whitespace does not change what [strip] gives. *)
Lemma strip_pad (p1 s p2 : string) :
  all_space p1 = true → all_space p2 = true →
  strip (p1 ++ s ++ p2) = strip s.
Proof.
  intros H1 H2. unfold strip. rewrite (lstrip_app_space _ _ H1).
  by apply strip_lstrip_app_space.
Qed.

Lemma lstrip_no_space (c : ascii) (s : string) :
  isspace c = false → lstrip (String c s) = String c s.
Proof. intros Hc. simpl. by rewrite Hc. Qed.

(** ** Integer literals *)


Lemma digit_not_space (c : ascii) (d : Z) :
  digit_value c = Some d → isspace c = false.
Proof.
  unfold digit_value, isspace. intros H.
  destruct (_ && _)%N eqn:E; [| discriminate].
  apply andb_true_iff in E as [E1%N.leb_le E2%N.leb_le].
  repeat (apply orb_false_iff; split);
    rewrite ?andb_false_iff, ?N.leb_gt, ?N.eqb_neq; lia.
Qed.

Lemma digit_not_underscore (c : ascii) (d : Z) :
  digit_value c = Some d → Ascii.eqb c "_" = false.
Proof.
  intros H. apply Ascii.eqb_neq. intros ->. discriminate H.
Qed.

Lemma digit_not_sign (c : ascii) (d : Z) :
  digit_value c = Some d → Ascii.eqb c "-" = false ∧ Ascii.eqb c "+" = false.
Proof.
  intros H. split; apply Ascii.eqb_neq; intros ->; discriminate H.
Qed.

Lemma digits10_nonempty (s : string) (ds : list Z) :
  digits10 s ds → ∃ c d s', s = String c s' ∧ digit_value c = Some d.
Proof. destruct 1; eauto. Qed.

(** The parser accepts every literal of the grammar, with its value. *)
Lemma int_digits_complete (s : string) (ds : list Z) :
  digits10 s ds → ∀ acc, int_digits acc s = Some (decimal acc ds).
Proof.
  induction 1 as [c d Hc | c d s ds Hc Hs IH | c d s ds Hc Hs IH];
    intros acc; simpl; rewrite Hc.
  - reflexivity.
  - destruct (digits10_nonempty _ _ Hs) as (c' & d' & s' & -> & Hc').
    rewrite (digit_not_underscore _ _ Hc'). apply IH.
  - apply IH.
Qed.

(** What the parser accepts is a literal of the grammar. *)
Lemma int_digits_sound (n : nat) :
  ∀ s acc v, (String.length s ≤ n)%nat → int_digits acc s = Some v →
  ∃ ds, digits10 s ds ∧ v = decimal acc ds.
Proof.
  induction n as [|n IH]; intros [|c rest] acc v Hlen H;
    simpl in *; try discriminate; try lia.
  destruct (digit_value c) as [d|] eqn:Hc; [| discriminate].
  destruct rest as [|c' rest'].
  - injection H as <-. exists [d]. split; [by constructor | reflexivity].
  - destruct (Ascii.eqb c' "_") eqn:Hu.
    + apply Ascii.eqb_eq in Hu as ->.
      apply IH in H as (ds & Hds & ->); [| simpl in *; lia].
      exists (d :: ds). split; [by apply digits10_sep | reflexivity].
    + apply IH in H as (ds & Hds & ->); [| simpl in *; lia].
      exists (d :: ds). split; [by apply digits10_next | reflexivity].
Qed.

Lemma int_digits_spec (s : string) (acc v : Z) :
  int_digits acc s = Some v ↔ ∃ ds, digits10 s ds ∧ v = decimal acc ds.
Proof.
  split.
  - by apply (int_digits_sound (String.length s)).
  - intros (ds & Hds & ->). by apply int_digits_complete.
Qed.

Lemma digits10_rstrip (s : string) (ds : list Z) :
  digits10 s ds → rstrip s = s.
Proof.
  induction 1 as [c d Hc | c d s ds Hc Hs IH | c d s ds Hc Hs IH]; simpl.
  - by rewrite (digit_not_space _ _ Hc).
  - rewrite IH. by destruct (digits10_nonempty _ _ Hs) as (? & ? & ? & -> & _).
  - rewrite IH. by destruct (digits10_nonempty _ _ Hs) as (? & ? & ? & -> & _).
Qed.

(** A sign and digits have no whitespace for [strip] to remove. *)
Lemma strip_signed (sign body : string) (sg : Z) (ds : list Z) :
  sign_prefix sign sg → digits10 body ds → strip (sign ++ body) = sign ++ body.
Proof.
  intros Hsign Hbody. pose proof (digits10_rstrip _ _ Hbody) as Hr.
  destruct (digits10_nonempty _ _ Hbody) as (c & d & s' & -> & Hc).
  pose proof (digit_not_space _ _ Hc) as Hsp.
  unfold strip. destruct Hsign; sapp.
  - by rewrite lstrip_no_space.
  - rewrite lstrip_no_space by reflexivity.
    change (rstrip (String "+" (String c s')))
      with (match rstrip (String c s') with
            | "" => if isspace "+" then "" else String "+" ""
            | r => String "+" r
            end).
    by rewrite Hr.
  - rewrite lstrip_no_space by reflexivity.
    change (rstrip (String "-" (String c s')))
      with (match rstrip (String c s') with
            | "" => if isspace "-" then "" else String "-" ""
            | r => String "-" r
            end).
    by rewrite Hr.
Qed.

Lemma int_literal_signed (sign body : string) (sg : Z) (ds : list Z) :
  sign_prefix sign sg → digits10 body ds →
  int_literal (sign ++ body) = Some (sg * decimal 0 ds).
Proof.
  intros Hsign Hbody.
  pose proof (int_digits_complete _ _ Hbody 0) as Hd.
  destruct Hsign; sapp; unfold int_literal.
  - destruct (digits10_nonempty _ _ Hbody) as (c & d & s' & -> & Hc).
    destruct (digit_not_sign _ _ Hc) as [-> ->]. rewrite Hd.
    f_equal. lia.
  - change (Ascii.eqb "+" "-") with false. change (Ascii.eqb "+" "+") with true.
    cbv iota. rewrite Hd. f_equal. lia.
  - change (Ascii.eqb "-" "-") with true.
    cbv iota. rewrite Hd. simpl. f_equal; lia.
Qed.

Lemma int_literal_inv (s : string) (n : Z) :
  int_literal s = Some n →
  ∃ sign sg body ds, s = sign ++ body ∧ sign_prefix sign sg
    ∧ digits10 body ds ∧ n = sg * decimal 0 ds.
Proof.
  unfold int_literal. destruct s as [|c rest]; [discriminate |].
  destruct (Ascii.eqb c "-") eqn:Hm; [| destruct (Ascii.eqb c "+") eqn:Hp].
  - apply Ascii.eqb_eq in Hm as ->.
    destruct (int_digits 0 rest) as [v|] eqn:Hv; [| discriminate].
    intros [= <-]. apply int_digits_spec in Hv as (ds & Hds & ->).
    exists "-", (-1), rest, ds.
    split; [reflexivity |]. split; [constructor |]. split; [done | lia].
  - apply Ascii.eqb_eq in Hp as ->.
    intros Hv. apply int_digits_spec in Hv as (ds & Hds & ->).
    exists "+", 1, rest, ds.
    split; [reflexivity |]. split; [constructor |]. split; [done | lia].
  - intros Hv. apply int_digits_spec in Hv as (ds & Hds & ->).
    exists "", 1, (String c rest), ds.
    split; [reflexivity |]. split; [constructor |]. split; [done | lia].
Qed.

(** The literal of [v.strip()] is [n] exactly when [v] reads as the
    base-10 integer [n]. *)
Lemma int_literal_strip (v : string) (n : Z) :
  int_literal (strip v) = Some n ↔ base10_literal v n.
Proof.
  split.
  - intros (sign & sg & body & ds & Hs & Hsign & Hbody & ->)%int_literal_inv.
    destruct (strip_decompose v) as (p1 & p2 & Hv & H1 & H2).
    rewrite Hv, Hs. by econstructor.
  - destruct 1 as [pad1 sign sg body ds pad2 H1 H2 Hsign Hbody].
    rewrite (strip_pad _ _ _ H1 H2), (strip_signed _ _ _ _ Hsign Hbody).
    by apply int_literal_signed.
Qed.

(** A string reads as at most one integer. *)
Lemma base10_literal_functional (v : string) (n m : Z) :
  base10_literal v n → base10_literal v m → n = m.
Proof. intros Hn%int_literal_strip Hm%int_literal_strip. congruence. Qed.

(** ** The limit on digits *)

Lemma digit_count_nonneg (s : string) : 0 ≤ digit_count s.
Proof.
  induction s as [|c s IH]; simpl; [lia |]. destruct (digit_value c); lia.
Qed.

Lemma digit_count_app (a b : string) :
  digit_count (a ++ b) = digit_count a + digit_count b.
Proof.
  induction a as [|c a IH]; sapp; simpl; [reflexivity |]. rewrite IH. lia.
Qed.

Lemma digit_count_space (p : string) : all_space p = true → digit_count p = 0.
Proof.
  induction p as [|c p IH]; simpl; [reflexivity |].
  intros [Hc Hp]%andb_true_iff. rewrite (IH Hp).
  destruct (digit_value c) as [d|] eqn:Hd; [| reflexivity].
  rewrite (digit_not_space _ _ Hd) in Hc. discriminate.
Qed.

(** Stripping removes no digit. *)
Lemma digit_count_strip (v : string) : digit_count (strip v) = digit_count v.
Proof.
  destruct (strip_decompose v) as (p1 & p2 & Hv & H1 & H2).
  rewrite Hv at 2. rewrite !digit_count_app.
  rewrite (digit_count_space _ H1), (digit_count_space _ H2). lia.
Qed.



(** [int] returns exactly on a literal within the limit. *)
Lemma py_int_ok (s : string) (n : Z) :
  py_int s = Ok n ↔
  int_literal s = Some n ∧ digit_count s ≤ int_max_str_digits.
Proof.
  unfold py_int. destruct (int_literal s) as [m|]; [| by split; [| intros []]].
  destruct (Z.ltb_spec int_max_str_digits (digit_count s)).
  - split; [discriminate | intros [_ ?]; lia].
  - split; [intros [= <-]; split; [done | lia] | by intros [[= <-] _]].
Qed.

(** [int(v.strip())] returns [n] exactly when [v] reads as the base-10
    integer [n] and has no more digits than the limit. *)
Lemma py_int_strip_literal (v : string) (n : Z) :
  py_int (strip v) = Ok n ↔
  base10_literal v n ∧ digit_count v ≤ int_max_str_digits.
Proof. by rewrite py_int_ok, int_literal_strip, digit_count_strip. Qed.

Lemma py_int_raises (s : string) (e : exception) :
  py_int s = Raise e → e = ValueError.
Proof. unfold py_int. repeat case_match; congruence. Qed.

(** ** The coercion helpers *)

Lemma to_int_total (val : option string) (d : Z) :
  ∃ n, _to_int val d = Ok n.
Proof.
  unfold _to_int. destruct val as [v|]; [| by exists d].
  destruct (py_int (strip v)) as [n|e]; [by exists n | by exists d].
Qed.

Lemma to_int_none (d : Z) : _to_int None d = Ok d.
Proof. reflexivity. Qed.

Lemma to_int_literal (v : string) (n d : Z) :
  base10_literal v n → digit_count v ≤ int_max_str_digits →
  _to_int (Some v) d = Ok n.
Proof.
  intros Hlit Hcap. unfold _to_int.
  by rewrite (proj2 (py_int_strip_literal v n) (conj Hlit Hcap)).
Qed.

Lemma to_int_not_literal (v : string) (d : Z) :
  (∀ n, ¬ base10_literal v n) → _to_int (Some v) d = Ok d.
Proof.
  intros H. unfold _to_int.
  destruct (py_int (strip v)) as [n|e] eqn:E; [| reflexivity].
  apply py_int_strip_literal in E as [E _]. by destruct (H n).
Qed.


Lemma isspace_lower_char (c : ascii) : isspace (lower_char c) = isspace c.
Proof. by destruct c as [[] [] [] [] [] [] [] []]. Qed.

Lemma lower_lstrip (s : string) : lower (lstrip s) = lstrip (lower s).
Proof.
  induction s as [|c s IH]; simpl; [reflexivity |].
  rewrite isspace_lower_char. by destruct (isspace c).
Qed.

Lemma lower_rstrip (s : string) : lower (rstrip s) = rstrip (lower s).
Proof.
  induction s as [|c s IH]; simpl; [reflexivity |].
  rewrite <- IH, isspace_lower_char.
  destruct (rstrip s); simpl; [by destruct (isspace c) | reflexivity].
Qed.

Lemma lower_strip (s : string) : lower (strip s) = strip (lower s).
Proof. unfold strip. by rewrite lower_rstrip, lower_lstrip. Qed.

Lemma truthy_words (w : string) :
  w ∈ truthy ↔ w = "1" ∨ w = "true" ∨ w = "yes" ∨ w = "y" ∨ w = "on".
Proof. unfold truthy. rewrite !elem_of_union, !elem_of_singleton. tauto. Qed.

Lemma falsy_words (w : string) :
  w ∈ falsy ↔ w = "0" ∨ w = "false" ∨ w = "no" ∨ w = "n" ∨ w = "off".
Proof. unfold falsy. rewrite !elem_of_union, !elem_of_singleton. tauto. Qed.

(** No word is both true and false. *)
Lemma truthy_falsy_disjoint (w : string) : w ∈ truthy → w ∈ falsy → False.
Proof.
  rewrite truthy_words, falsy_words. intros Ht Hf.
  destruct Ht as [-> | [-> | [-> | [-> | ->]]]];
    destruct Hf as [? | [? | [? | [? | ?]]]]; discriminate.
Qed.

(** The words have no whitespace around them. *)
Lemma strip_word (w : string) : w ∈ truthy ∨ w ∈ falsy → strip w = w.
Proof.
  rewrite truthy_words, falsy_words.
  intros [H | H]; destruct H as [-> | [-> | [-> | [-> | ->]]]]; reflexivity.
Qed.

(** Matching up to case and padding is what [lower (strip v)] decides. *)
Lemma matches_padded_iff (v : string) (words : gset string) :
  words = truthy ∨ words = falsy →
  matches_padded v words ↔ lower (strip v) ∈ words.
Proof.
  intros Hw. unfold matches_padded, matches_ignoring_case. split.
  - intros (p1 & u & p2 & -> & H1 & H2 & Hu).
    rewrite (strip_pad _ _ _ H1 H2), lower_strip, strip_word; [done |].
    destruct Hw as [-> | ->]; [by left | by right].
  - intros H. destruct (strip_decompose v) as (p1 & p2 & Hv & H1 & H2).
    by exists p1, (strip v), p2.
Qed.

Lemma to_bool_none (d : bool) : _to_bool None d = d.
Proof. reflexivity. Qed.

Lemma to_bool_truthy (v : string) (d : bool) :
  matches_padded v truthy → _to_bool (Some v) d = true.
Proof.
  intros H%matches_padded_iff; [| by left].
  unfold _to_bool. by rewrite bool_decide_eq_true_2.
Qed.

Lemma to_bool_falsy (v : string) (d : bool) :
  matches_padded v falsy → _to_bool (Some v) d = false.
Proof.
  intros H%matches_padded_iff; [| by right].
  unfold _to_bool. rewrite bool_decide_eq_false_2.
  - by rewrite bool_decide_eq_true_2.
  - intros Ht. exact (truthy_falsy_disjoint _ Ht H).
Qed.

Lemma to_bool_other (v : string) (d : bool) :
  ¬ matches_padded v truthy → ¬ matches_padded v falsy →
  _to_bool (Some v) d = d.
Proof.
  intros Ht Hf.
  assert (lower (strip v) ∉ truthy) as Ht'
    by (intros H; apply Ht, matches_padded_iff; [by left | done]).
  assert (lower (strip v) ∉ falsy) as Hf'
    by (intros H; apply Hf, matches_padded_iff; [by right | done]).
  unfold _to_bool. by rewrite !bool_decide_eq_false_2.
Qed.

(** ** The merged mapping *)

Lemma bind_Ok {A B} (a : A) (f : A → Exc B) : (Ok a ≫= f) = f a.
Proof. reflexivity. Qed.

(** The loop over [os.environ] is a union in which the environment
    wins. *)
Lemma overlay_environ_union (h : Host) (merged : gmap string string) :
  overlay_environ h merged = environ h ∪ merged.
Proof.
  unfold overlay_environ.
  apply (map_fold_weak_ind (λ r m, r = m ∪ merged)).
  - by rewrite (left_id_L ∅ (∪)).
  - intros k v m r _ ->. by rewrite insert_union_l.
Qed.

Lemma read_file_unusable (h : Host) (p : string) (m : gmap string string) :
  file_unusable h p → read_file h p m = Ok m.
Proof.
  unfold read_file. intros [-> | [-> | (parse & e & -> & ->)]].
  - reflexivity.
  - by destruct (dotenv_values h).
  - by destruct (isfile h p).
Qed.

Lemma read_file_parsed (h : Host) (p : string) (m : gmap string string)
    parse (file_vals : gmap string (option string)) :
  dotenv_values h = Some parse → isfile h p = true →
  parse p = Ok file_vals →
  read_file h p m = Ok (omap id file_vals ∪ m).
Proof. unfold read_file. by intros -> -> ->. Qed.

(** Either the file is unusable or it was parsed. *)
Lemma file_cases (h : Host) (p : string) :
  file_unusable h p
  ∨ ∃ parse file_vals, dotenv_values h = Some parse ∧ isfile h p = true
      ∧ parse p = Ok file_vals.
Proof.
  unfold file_unusable.
  destruct (dotenv_values h) as [parse|] eqn:Hd; [| by left; left].
  destruct (isfile h p) eqn:Hf; [| by left; right; left].
  destruct (parse p) as [fv|e] eqn:Hp.
  - right. by exists parse, fv.
  - left. right. right. by exists parse, e.
Qed.

Lemma merge_sources_unusable (h : Host) (p : string) :
  file_unusable h p → merge_sources h p = Ok (environ h).
Proof.
  intros H. unfold merge_sources. rewrite (read_file_unusable _ _ _ H).
  rewrite bind_Ok, overlay_environ_union. by rewrite (right_id_L ∅ (∪)).
Qed.

Lemma merge_sources_parsed (h : Host) (p : string) parse
    (file_vals : gmap string (option string)) :
  dotenv_values h = Some parse → isfile h p = true →
  parse p = Ok file_vals →
  merge_sources h p = Ok (environ h ∪ omap id file_vals).
Proof.
  intros Hd Hf Hp. unfold merge_sources.
  rewrite (read_file_parsed _ _ _ _ _ Hd Hf Hp).
  rewrite bind_Ok, overlay_environ_union. by rewrite (right_id_L ∅ (∪)).
Qed.

Lemma merge_sources_total (h : Host) (p : string) :
  ∃ merged, merge_sources h p = Ok merged.
Proof.
  destruct (file_cases h p) as [H | (parse & fv & Hd & Hf & Hp)].
  - exists (environ h). by apply merge_sources_unusable.
  - eexists. by eapply merge_sources_parsed.
Qed.

(** A key of the environment has the environment's value. *)
Lemma merge_sources_environ (h : Host) (p : string)
    (merged : gmap string string) (k v : string) :
  merge_sources h p = Ok merged → environ h !! k = Some v →
  merged !! k = Some v.
Proof.
  intros Hm Hk.
  destruct (file_cases h p) as [H | (parse & fv & Hd & Hf & Hp)].
  - rewrite (merge_sources_unusable _ _ H) in Hm. by injection Hm as <-.
  - rewrite (merge_sources_parsed _ _ _ _ Hd Hf Hp) in Hm.
    injection Hm as <-. by apply lookup_union_Some_l.
Qed.

(** ** [load] returns *)

Lemma coerce_total (h : Host) (merged : gmap string string) (p : string) :
  ∃ cfg, coerce h merged p = Ok cfg.
Proof.
  unfold coerce.
  destruct (to_int_total (merged !! "THREADS") (THREADS (cls h))) as [n ->].
  rewrite bind_Ok. by eexists.
Qed.

Lemma load_total (h : Host) (env_file : option string) :
  ∃ merged cfg,
    merge_sources h (resolve_path h env_file) = Ok merged
    ∧ coerce h merged (resolve_path h env_file) = Ok cfg
    ∧ load h env_file = Ok cfg.
Proof.
  destruct (merge_sources_total h (resolve_path h env_file)) as [merged Hm].
  destruct (coerce_total h merged (resolve_path h env_file)) as [cfg Hc].
  exists merged, cfg. unfold load. by rewrite Hm, bind_Ok.
Qed.

(** Every field of the record [coerce] builds, by kind: its key in the
    merged mapping, and the class default it falls back to. *)
Lemma coerce_fields (h : Host) (merged : gmap string string) (p : string)
    (cfg : BotConfig) :
  coerce h merged p = Ok cfg →
  Forall (λ '(key, field),
      field cfg = _to_bool (merged !! key) (field (cls h))) bool_fields
  ∧ Forall (λ '(key, field),
      field cfg = get merged key (field (cls h))) str_fields
  ∧ _to_int (merged !! "THREADS") (THREADS (cls h)) = Ok (THREADS cfg)
  ∧ ENV_FILE cfg = p.
Proof.
  unfold coerce.
  destruct (_to_int (merged !! "THREADS") (THREADS (cls h))) as [n|e];
    [| discriminate].
  rewrite bind_Ok. intros [= <-]. simpl.
  split; [| split; [| done]]; repeat constructor.
Qed.

(** * The claims *)

(** Claim C1: [load] returns a record for every host and every argument,
    and never raises.  When the file is missing, the parser is missing or
    the parser raises, the merged mapping is the environment alone; an
    entry the file lists without a value and the environment does not set
    is not in the merged mapping; a [THREADS] value that does not read as
    an integer gives the default; and every field whose key is not in the
    merged mapping has its static default. *)
Theorem load_never_raises (h : Host) (env_file : option string) :
  ∃ merged cfg,
    merge_sources h (resolve_path h env_file) = Ok merged
    ∧ load h env_file = Ok cfg
    ∧ (file_unusable h (resolve_path h env_file) → merged = environ h)
    ∧ (∀ parse file_vals key,
         dotenv_values h = Some parse →
         parse (resolve_path h env_file) = Ok file_vals →
         file_vals !! key = Some None → environ h !! key = None →
         merged !! key = None)
    ∧ (∀ v, merged !! "THREADS" = Some v → (∀ n, ¬ base10_literal v n) →
         THREADS cfg = THREADS (cls h))
    ∧ (merged !! "THREADS" = None → THREADS cfg = THREADS (cls h))
    ∧ Forall (λ '(key, field),
         merged !! key = None → field cfg = field (cls h)) bool_fields
    ∧ Forall (λ '(key, field),
         merged !! key = None → field cfg = field (cls h)) str_fields.
Proof.
  destruct (load_total h env_file) as (merged & cfg & Hm & Hc & Hl).
  destruct (coerce_fields _ _ _ _ Hc) as (Hb & Hs & Ht & _).
  exists merged, cfg. repeat split; try done.
  - intros H. rewrite (merge_sources_unusable _ _ H) in Hm. by injection Hm.
  - intros parse fv key Hd Hp Hk He.
    destruct (isfile h (resolve_path h env_file)) eqn:Hf.
    + rewrite (merge_sources_parsed _ _ _ _ Hd Hf Hp) in Hm.
      injection Hm as <-. apply lookup_union_None. split; [done |].
      by rewrite lookup_omap, Hk.
    + rewrite merge_sources_unusable in Hm by (right; by left).
      by injection Hm as <-.
  - intros v Hv Hn. rewrite Hv, (to_int_not_literal _ _ Hn) in Ht.
    by injection Ht.
  - intros Hv. rewrite Hv in Ht. by injection Ht.
  - eapply Forall_impl; [exact Hb |]. intros [key field] -> ->. reflexivity.
  - eapply Forall_impl; [exact Hs |]. intros [key field] -> Hk.
    unfold get. by rewrite Hk.
Qed.

Lemma load_never_raises_witness :
  ∃ merged cfg,
    merge_sources host_conflict (resolve_path host_conflict None) = Ok merged
    ∧ load host_conflict None = Ok cfg
    ∧ merged !! "DEVICE" = None ∧ DEVICE cfg = "xaga".
Proof.
  destruct (load_never_raises host_conflict None)
    as (merged & cfg & Hm & Hl & _ & Hnone & _ & _ & _ & Hs).
  exists merged, cfg. split; [exact Hm |]. split; [exact Hl |].
  assert (merged !! "DEVICE" = None) as Hk.
  { eapply Hnone; [reflexivity | reflexivity | | ]; by vm_compute. }
  split; [exact Hk |].
  unfold str_fields in Hs. rewrite !Forall_cons in Hs.
  destruct Hs as (_ & _ & _ & _ & Hd & _). exact (Hd Hk).
Defined.

(** Claim C2: the merged mapping is the file's entries overlaid by the
    environment, so a key of the process environment has the
    environment's value in it, whatever the file gives for that key, and
    the field read from that key is coerced from the environment's
    value. *)
Theorem environ_overrides_file (h : Host) (env_file : option string)
    (k v : string) :
  environ h !! k = Some v →
  ∃ merged cfg,
    merge_sources h (resolve_path h env_file) = Ok merged
    ∧ load h env_file = Ok cfg
    ∧ (∀ parse file_vals,
         dotenv_values h = Some parse →
         isfile h (resolve_path h env_file) = true →
         parse (resolve_path h env_file) = Ok file_vals →
         merged = environ h ∪ omap id file_vals)
    ∧ merged !! k = Some v
    ∧ Forall (λ '(key, field),
         key = k → field cfg = _to_bool (Some v) (field (cls h))) bool_fields
    ∧ Forall (λ '(key, field), key = k → field cfg = v) str_fields
    ∧ (k = "THREADS" → _to_int (Some v) (THREADS (cls h)) = Ok (THREADS cfg)).
Proof.
  intros Hk.
  destruct (load_total h env_file) as (merged & cfg & Hm & Hc & Hl).
  destruct (coerce_fields _ _ _ _ Hc) as (Hb & Hs & Ht & _).
  pose proof (merge_sources_environ _ _ _ _ _ Hm Hk) as Hmk.
  exists merged, cfg. repeat split; try done.
  - intros parse fv Hd Hf Hp.
    rewrite (merge_sources_parsed _ _ _ _ Hd Hf Hp) in Hm. by injection Hm.
  - eapply Forall_impl; [exact Hb |]. intros [key field] -> ->.
    by rewrite Hmk.
  - eapply Forall_impl; [exact Hs |]. intros [key field] -> ->.
    unfold get. by rewrite Hmk.
  - intros ->. by rewrite Hmk in Ht.
Qed.

Lemma environ_overrides_file_witness :
  (∃ parse file_vals, dotenv_values host_conflict = Some parse
     ∧ parse ".env" = Ok file_vals
     ∧ file_vals !! "WORKDIR" = Some (Some "from_file"))
  ∧ ∃ merged cfg,
      merge_sources host_conflict (resolve_path host_conflict None) = Ok merged
      ∧ load host_conflict None = Ok cfg
      ∧ merged !! "WORKDIR" = Some "from_env"
      ∧ WORKDIR cfg = "from_env".
Proof.
  split.
  - eexists _, _. split; [reflexivity |]. split; [reflexivity |]. by vm_compute.
  - destruct (environ_overrides_file host_conflict None "WORKDIR" "from_env")
      as (merged & cfg & Hm & Hl & _ & Hk & _ & Hs & _); [by vm_compute |].
    exists merged, cfg. split; [exact Hm |]. split; [exact Hl |].
    split; [exact Hk |].
    unfold str_fields in Hs. rewrite !Forall_cons in Hs.
    destruct Hs as (_ & _ & Hw & _). exact (Hw eq_refl).
Defined.





(** Claim C4, as the code has it: a value matches a set of words when it
    is one of them up to case *and surrounding whitespace*.  Every boolean
    field is true on a match with the truthy words, false on a match with
    the falsy words, and its static default on any other value and on an
    absent key. *)
Theorem bool_fields_coercion (h : Host) (env_file : option string) :
  ∃ merged cfg,
    merge_sources h (resolve_path h env_file) = Ok merged
    ∧ load h env_file = Ok cfg
    ∧ Forall (λ '(key, field),
        field cfg = _to_bool (merged !! key) (field (cls h))
        ∧ (merged !! key = None → field cfg = field (cls h))
        ∧ (∀ v, merged !! key = Some v →
             (matches_padded v truthy → field cfg = true)
             ∧ (matches_padded v falsy → field cfg = false)
             ∧ (¬ matches_padded v truthy → ¬ matches_padded v falsy →
                  field cfg = field (cls h)))) bool_fields.
Proof.
  destruct (load_total h env_file) as (merged & cfg & Hm & Hc & Hl).
  destruct (coerce_fields _ _ _ _ Hc) as (Hb & _).
  exists merged, cfg. split; [exact Hm |]. split; [exact Hl |].
  eapply Forall_impl; [exact Hb |]. intros [key field] Hfield.
  split; [exact Hfield |]. rewrite Hfield. split.
  - by intros ->.
  - intros v ->. split; [apply to_bool_truthy |].
    split; [apply to_bool_falsy | apply to_bool_other].
Qed.

(** The claim as the specification words it fails on a padded value:
    [" true "] is no word of either set up to case, so [RUN_BUILD] should
    keep its default, false; [load] makes it true. *)
Lemma padded_flag_counterexample :
  ∃ cfg, load host_padded_flag None = Ok cfg
    ∧ environ host_padded_flag !! "RUN_BUILD" = Some " true "
    ∧ RUN_BUILD cfg = true
    ∧ to_bool_as_stated (Some " true ") (RUN_BUILD (cls host_padded_flag))
      = false.
Proof. eexists. split; [by vm_compute |]. by vm_compute. Qed.


Lemma bool_fields_coercion_witness :
  ∃ cfg, load host_padded_flag None = Ok cfg ∧ RUN_BUILD cfg = true.
Proof.
  destruct (bool_fields_coercion host_padded_flag None)
    as (merged & cfg & Hm & Hl & Hb).
  exists cfg. split; [exact Hl |].
  unfold bool_fields in Hb. rewrite !Forall_cons in Hb.
  destruct Hb as (_ & _ & (_ & _ & Hrun) & _).
  assert (merged !! "RUN_BUILD" = Some " true ") as Hk.
  { rewrite merge_sources_unusable in Hm by (by left).
    injection Hm as <-. by vm_compute. }
  destruct (Hrun _ Hk) as (Htrue & _). apply Htrue.
  exists " ", "true", " ". split; [reflexivity |].
  split; [reflexivity |]. split; [reflexivity |].
  apply truthy_words. right. by left.
Defined.


(** ** The path of the file *)

Lemma first_path_explicit (h : Host) (s : string) :
  s ≠ "" → first_path h (Some s) = s.
Proof.
  intros Hs%eqb_neq. unfold first_path, or_else. rewrite Hs. simpl.
  by rewrite Hs.
Qed.

Lemma first_path_environ (h : Host) (env_file : option string) (s : string) :
  env_file = None ∨ env_file = Some "" →
  environ h !! "ENV_FILE" = Some s → s ≠ "" → first_path h env_file = s.
Proof.
  intros Hnone He Hs%eqb_neq. unfold first_path, or_else.
  destruct Hnone as [-> | ->]; simpl; rewrite He; simpl; by rewrite Hs.
Qed.

Lemma first_path_default (h : Host) (env_file : option string) :
  env_file = None ∨ env_file = Some "" →
  environ h !! "ENV_FILE" = None ∨ environ h !! "ENV_FILE" = Some "" →
  first_path h env_file = ".env".
Proof.
  intros Hnone He. unfold first_path, or_else.
  destruct Hnone as [-> | ->], He as [-> | ->]; reflexivity.
Qed.

(** Claim C6 against the code, at a path the caller names.  The caller
    asks for ["custom.env"], which does not exist; [".env"] and
    [".env_xaga"] both exist.  Line 88 tests the path first chosen, not
    the default file, so [load] settles on [".env_xaga"] and records it
    in [ENV_FILE] although [".env"] is there: the fallback the comment of
    line 87 and the specification keep for a missing [".env"] is taken
    with [".env"] present.  Where the path first chosen is the default
    [".env"] itself, the code does fall back as stated. *)
Theorem explicit_path_falls_back :
  first_path host_both_files (Some "custom.env") = "custom.env"
  ∧ isfile host_both_files "custom.env" = false
  ∧ isfile host_both_files ".env" = true
  ∧ isfile host_both_files ".env_xaga" = true
  ∧ resolve_path host_both_files (Some "custom.env") = ".env_xaga"
  ∧ (∃ cfg, load host_both_files (Some "custom.env") = Ok cfg
       ∧ ENV_FILE cfg = ".env_xaga")
  ∧ ¬ fallback_as_stated host_both_files (Some "custom.env")
  ∧ (∀ h env_file,
       first_path h env_file = ".env" → fallback_as_stated h env_file).
Proof.
  split; [reflexivity |]. split; [reflexivity |]. split; [reflexivity |].
  split; [reflexivity |]. split; [reflexivity |].
  split; [eexists; split; [by vm_compute | reflexivity] |].
  split.
  - intros H. destruct H as [H _]; [reflexivity | discriminate | discriminate].
  - intros h env_file Hp. unfold fallback_as_stated, resolve_path.
    rewrite Hp.
    destruct (isfile h ".env"), (isfile h ".env_xaga"); simpl;
      intros H1 H2; done.
Qed.

(** ** [str] of an integer reads back *)

Lemma int_digits_step (c c' : ascii) (k k' : Z) (s : string) (acc : Z) :
  digit_value c = Some k → digit_value c' = Some k' →
  int_digits acc (String c (String c' s))
  = int_digits (10 * acc + k) (String c' s).
Proof.
  intros Hc Hc'.
  change (int_digits acc (String c (String c' s)))
    with (match digit_value c with
          | None => None
          | Some d =>
              if Ascii.eqb c' "_" then int_digits (10 * acc + d) s
              else int_digits (10 * acc + d) (String c' s)
          end).
  by rewrite Hc, (digit_not_underscore _ _ Hc').
Qed.

Lemma uint_string_digits (d : uint) :
  d ≠ Nil → ∀ acc,
  int_digits acc (NilEmpty.string_of_uint d) = Some (uint_value acc d).
Proof.
  induction d as [|d IH|d IH|d IH|d IH|d IH|d IH|d IH|d IH|d IH|d IH];
    intros Hne acc; [congruence | ..];
    (destruct d;
     [reflexivity
     | (etransitivity;
        [eapply int_digits_step; reflexivity
        | exact (IH ltac:(discriminate) _)]) ..]).
Qed.

Lemma uint_value_acc (d : uint) (p : positive) :
  uint_value (Z.pos p) d = Z.pos (Pos.of_uint_acc d p).
Proof.
  revert p.
  induction d as [|d IH|d IH|d IH|d IH|d IH|d IH|d IH|d IH|d IH|d IH];
    intros p; simpl; [reflexivity | ..]; rewrite <- IH; f_equal; lia.
Qed.

Lemma uint_value_of_uint (d : uint) : uint_value 0 d = Z.of_N (Pos.of_uint d).
Proof.
  induction d as [|d IH|d IH|d IH|d IH|d IH|d IH|d IH|d IH|d IH|d IH];
    simpl; [reflexivity | exact IH | ..]; apply uint_value_acc.
Qed.

Lemma int_literal_digit_first (c : ascii) (k : Z) (s : string) :
  digit_value c = Some k →
  int_literal (String c s) = int_digits 0 (String c s).
Proof.
  intros Hc. unfold int_literal. by destruct (digit_not_sign _ _ Hc) as [-> ->].
Qed.

Lemma int_literal_uint_string (d : uint) :
  d ≠ Nil → int_literal (NilEmpty.string_of_uint d) = Some (uint_value 0 d).
Proof.
  intros Hne. pose proof (uint_string_digits d Hne 0) as H.
  destruct d; [congruence | ..];
    cbn [NilEmpty.string_of_uint] in *;
    (erewrite int_literal_digit_first by reflexivity); by rewrite H.
Qed.

Lemma int_literal_negative_uint_string (d : uint) :
  d ≠ Nil →
  int_literal (String "-" (NilEmpty.string_of_uint d))
  = Some (- uint_value 0 d).
Proof.
  intros Hne. unfold int_literal.
  change (Ascii.eqb "-" "-") with true. cbv iota.
  by rewrite (uint_string_digits d Hne 0).
Qed.

Lemma string_of_uint_nonnil (d : uint) :
  d ≠ Nil → NilZero.string_of_uint d = NilEmpty.string_of_uint d.
Proof. by destruct d. Qed.

(** The literal of the numeral of [n] is [n]. *)
Lemma int_literal_numeral (n : Z) : int_literal (decimal_numeral n) = Some n.
Proof.
  unfold decimal_numeral. destruct n as [|p|p]; [reflexivity | ..];
    pose proof (DecimalPos.Unsigned.to_uint_nonnil p) as Hne;
    unfold Z.to_int, NilZero.string_of_int;
    rewrite (string_of_uint_nonnil _ Hne).
  - by rewrite (int_literal_uint_string _ Hne), uint_value_of_uint,
      DecimalPos.Unsigned.of_to.
  - by rewrite (int_literal_negative_uint_string _ Hne), uint_value_of_uint,
      DecimalPos.Unsigned.of_to.
Qed.

(** [str] returns exactly when the numeral is within the limit. *)
Lemma py_str_ok (n : Z) (s : string) :
  py_str n = Ok s ↔
  s = decimal_numeral n ∧ digit_count s ≤ int_max_str_digits.
Proof.
  unfold py_str.
  destruct (Z.ltb_spec int_max_str_digits (digit_count (decimal_numeral n))).
  - split; [discriminate | intros [-> ?]; lia].
  - split; [by intros [= <-] | by intros [-> _]].
Qed.

Lemma py_str_raises (n : Z) (e : exception) :
  py_str n = Raise e ↔
  e = ValueError ∧ int_max_str_digits < digit_count (decimal_numeral n).
Proof.
  unfold py_str.
  destruct (Z.ltb_spec int_max_str_digits (digit_count (decimal_numeral n))).
  - split; [by intros [= <-] | by intros [-> _]].
  - split; [discriminate | intros [_ ?]; lia].
Qed.

(** [int(str(n)) == n] whenever [str(n)] returns. *)
Lemma py_int_py_str (n : Z) (s : string) :
  py_str n = Ok s → py_int s = Ok n.
Proof.
  intros [-> Hcap]%py_str_ok. apply py_int_ok.
  split; [apply int_literal_numeral | exact Hcap].
Qed.

(** ** How many digits a value read by [int] has *)











(** ** The script environment *)

Lemma to_script_env_inv (self : BotConfig) (env : gmap string string) :
  to_script_env self = Ok env ↔
  decimal_digits (THREADS self) ≤ int_max_str_digits
  ∧ env = <["BUILD_VOLUME_DEVICE" := BUILD_VOLUME_DEVICE self]>
          (<["APPLY_WPA_PATCHES" :=
               if APPLY_WPA_PATCHES self then "true" else "false"]>
          (<["WITH_MIUI_CAM" :=
               if WITH_MIUI_CAM self then "true" else "false"]>
          (<["THREADS" := decimal_numeral (THREADS self)]>
          (<["WORKDIR" := WORKDIR self]>
          (<["AXION_BRANCH" := AXION_BRANCH self]>
          (<["AXION_REMOTE_URL" := AXION_REMOTE_URL self]> ∅)))))).
Proof.
  unfold to_script_env, decimal_digits.
  destruct (py_str (THREADS self)) as [t|e] eqn:E.
  - apply py_str_ok in E as [-> Hcap]. rewrite bind_Ok.
    split; [by intros [= <-] | by intros [_ ->]].
  - apply py_str_raises in E as [-> Hcap].
    split; [discriminate | intros [? _]; lia].
Qed.


Lemma script_env_lookups (self : BotConfig) (env : gmap string string) :
  to_script_env self = Ok env →
  env !! "AXION_REMOTE_URL" = Some (AXION_REMOTE_URL self)
  ∧ env !! "AXION_BRANCH" = Some (AXION_BRANCH self)
  ∧ env !! "WORKDIR" = Some (WORKDIR self)
  ∧ env !! "THREADS" = Some (decimal_numeral (THREADS self))
  ∧ env !! "WITH_MIUI_CAM"
    = Some (if WITH_MIUI_CAM self then "true" else "false")
  ∧ env !! "APPLY_WPA_PATCHES"
    = Some (if APPLY_WPA_PATCHES self then "true" else "false")
  ∧ env !! "BUILD_VOLUME_DEVICE" = Some (BUILD_VOLUME_DEVICE self).
Proof.
  intros [_ ->]%to_script_env_inv.
  repeat split; rewrite ?lookup_insert_ne by done; by rewrite lookup_insert_eq.
Qed.

Lemma script_env_dom (self : BotConfig) (env : gmap string string)
    (k : string) :
  to_script_env self = Ok env →
  is_Some (env !! k) ↔
  k = "AXION_REMOTE_URL" ∨ k = "AXION_BRANCH" ∨ k = "WORKDIR"
  ∨ k = "THREADS" ∨ k = "WITH_MIUI_CAM" ∨ k = "APPLY_WPA_PATCHES"
  ∨ k = "BUILD_VOLUME_DEVICE".
Proof.
  intros [_ ->]%to_script_env_inv. rewrite <- elem_of_dom.
  rewrite !dom_insert_L, dom_empty_L, !elem_of_union, !elem_of_singleton.
  rewrite elem_of_empty. tauto.
Qed.




(** ** Records on the heap *)

(** The merged mapping in closed form. *)
Lemma merge_sources_closed (h : Host) (p : string) :
  merge_sources h p = Ok (environ h ∪ file_part h p).
Proof.
  unfold file_part.
  destruct (file_cases h p) as [H | (parse & fv & Hd & Hf & Hp)].
  - rewrite (merge_sources_unusable _ _ H). f_equal.
    destruct H as [-> | [-> | (parse & e & -> & ->)]].
    + by rewrite (right_id_L ∅ (∪)).
    + destruct (dotenv_values h); by rewrite (right_id_L ∅ (∪)).
    + destruct (isfile h p); by rewrite (right_id_L ∅ (∪)).
  - rewrite (merge_sources_parsed _ _ _ _ Hd Hf Hp). by rewrite Hd, Hf, Hp.
Qed.








(** Without the filter of line 94 an entry without a value would reach
    the constructor: a dict that holds one gives the attribute [None]. *)
Lemma kwargs_none_entry :
  (o ← Heap.kwargs host_bare {["DEVICE" := None]} ".env";
   Heap.getattr o "DEVICE") = Ok VNone.
Proof. by vm_compute. Qed.


Lemma getattr_as_dict (cfg : BotConfig) :
  Heap.getattr (as_dict cfg) "AXION_REMOTE_URL" = Ok (VStr (AXION_REMOTE_URL cfg))
  ∧ Heap.getattr (as_dict cfg) "AXION_BRANCH" = Ok (VStr (AXION_BRANCH cfg))
  ∧ Heap.getattr (as_dict cfg) "WORKDIR" = Ok (VStr (WORKDIR cfg))
  ∧ Heap.getattr (as_dict cfg) "THREADS" = Ok (VInt (THREADS cfg))
  ∧ Heap.getattr (as_dict cfg) "WITH_MIUI_CAM" = Ok (VBool (WITH_MIUI_CAM cfg))
  ∧ Heap.getattr (as_dict cfg) "APPLY_WPA_PATCHES"
    = Ok (VBool (APPLY_WPA_PATCHES cfg))
  ∧ Heap.getattr (as_dict cfg) "BUILD_VOLUME_DEVICE"
    = Ok (VStr (BUILD_VOLUME_DEVICE cfg)).
Proof. repeat split. Qed.

(** On a record [load] made, [to_script_env] on the heap is
    [to_script_env] of the record, and leaves the heap as it was. *)
Lemma heap_to_script_env (hp : Heap.heap) (self : nat) (cfg : BotConfig) :
  hp !! self = Some (as_dict cfg) →
  Heap.to_script_env hp self
  = (hp, match to_script_env cfg with
         | Ok env => Ok (VStr <$> env)
         | Raise e => Raise e
         end).
Proof.
  intros Hs. unfold Heap.to_script_env, Heap.object, to_script_env.
  rewrite Hs. f_equal.
  destruct (getattr_as_dict cfg) as (-> & -> & -> & -> & -> & -> & ->).
  rewrite !bind_Ok. simpl Heap.str.
  destruct (py_str (THREADS cfg)) as [t|e]; [| reflexivity].
  rewrite !bind_Ok. simpl. by rewrite !fmap_insert, fmap_empty.
Qed.

(** On a record [load] made, [as_dict] on the heap is [as_dict] of the
    record. *)
Lemma heap_as_dict (hp : Heap.heap) (self : nat) (cfg : BotConfig) :
  hp !! self = Some (as_dict cfg) →
  Heap.as_dict hp self = (hp, Ok (as_dict cfg)).
Proof. intros Hs. unfold Heap.as_dict, Heap.object. by rewrite Hs. Qed.





(** ** Entries without a value *)

Lemma omap_delete_none (file_vals : gmap string (option string)) (k : string) :
  file_vals !! k = Some None →
  omap id (delete k file_vals) = omap id file_vals.
Proof.
  intros Hk. apply map_eq. intros i. rewrite !lookup_omap.
  destruct (decide (i = k)) as [-> | Hne].
  - by rewrite lookup_delete_eq, Hk.
  - by rewrite lookup_delete_ne.
Qed.

(** Claim C9: an entry the file lists without a value is not in the
    merged mapping unless the environment sets the key: the merged value
    of the key is the environment's, the fields read from it are coerced
    from the environment's value or take their default, and the record is
    the one [load] returns when the file does not list the key at all. *)
Theorem none_entries_dropped (h : Host) (env_file : option string)
    (parse : string → Exc (gmap string (option string)))
    (file_vals : gmap string (option string)) (k : string) :
  dotenv_values h = Some parse →
  parse (resolve_path h env_file) = Ok file_vals →
  file_vals !! k = Some None →
  ∃ merged cfg,
    merge_sources h (resolve_path h env_file) = Ok merged
    ∧ load h env_file = Ok cfg
    ∧ merged !! k = environ h !! k
    ∧ load (with_dotenv h (Some (λ _, Ok (delete k file_vals)))) env_file
      = Ok cfg
    ∧ Forall (λ '(key, field), key = k →
         field cfg = _to_bool (environ h !! k) (field (cls h))) bool_fields
    ∧ Forall (λ '(key, field), key = k →
         field cfg = default (field (cls h)) (environ h !! k)) str_fields
    ∧ (k = "THREADS" →
         _to_int (environ h !! k) (THREADS (cls h)) = Ok (THREADS cfg)).
Proof.
  intros Hd Hp Hk.
  destruct (load_total h env_file) as (merged & cfg & Hm & Hc & Hl).
  destruct (coerce_fields _ _ _ _ Hc) as (Hb & Hs & Ht & _).
  set (h' := with_dotenv h (Some (λ _, Ok (delete k file_vals)))).
  assert (merge_sources h' (resolve_path h env_file) = Ok merged
          ∧ merged !! k = environ h !! k) as [Hm' Hmk].
  { destruct (isfile h (resolve_path h env_file)) eqn:Hf.
    - rewrite (merge_sources_parsed _ _ _ _ Hd Hf Hp) in Hm.
      injection Hm as <-. split.
      + rewrite (merge_sources_parsed h' _ _ (delete k file_vals)
                   eq_refl Hf eq_refl).
        by rewrite (omap_delete_none _ _ Hk).
      + rewrite lookup_union_l; [done |]. by rewrite lookup_omap, Hk.
    - rewrite merge_sources_unusable in Hm by (right; by left).
      injection Hm as <-. split; [| done].
      apply (merge_sources_unusable h'). right. by left. }
  exists merged, cfg. split; [exact Hm |]. split; [exact Hl |].
  split; [exact Hmk |]. split.
  - unfold load. change (resolve_path h' env_file) with (resolve_path h env_file).
    rewrite Hm', bind_Ok. exact Hc.
  - split; [| split].
    + eapply Forall_impl; [exact Hb |]. intros [key field] -> ->.
      by rewrite Hmk.
    + eapply Forall_impl; [exact Hs |]. intros [key field] -> ->.
      unfold get. by rewrite Hmk.
    + intros ->. by rewrite Hmk in Ht.
Qed.

Lemma none_entries_dropped_witness :
  ∃ cfg, load host_conflict None = Ok cfg ∧ DEVICE cfg = "xaga".
Proof.
  destruct (none_entries_dropped host_conflict None
              (λ _, Ok (<["WORKDIR" := Some "from_file"]>
                        (<["DEVICE" := None]>
                        (<["THREADS" := Some " 42 "]> ∅))))
              _ "DEVICE" eq_refl eq_refl)
    as (merged & cfg & _ & Hl & _ & _ & _ & Hs & _); [by vm_compute |].
  exists cfg. split; [exact Hl |].
  unfold str_fields in Hs. rewrite !Forall_cons in Hs.
  destruct Hs as (_ & _ & _ & _ & Hdev & _). exact (Hdev eq_refl).
Defined.

(** ** Padded values *)

Lemma to_bool_pad (pad1 v pad2 : string) (d : bool) :
  all_space pad1 = true → all_space pad2 = true →
  _to_bool (Some (pad1 ++ v ++ pad2)) d = _to_bool (Some v) d.
Proof. intros H1 H2. unfold _to_bool. by rewrite (strip_pad _ _ _ H1 H2). Qed.

Lemma to_int_pad (pad1 v pad2 : string) (d : Z) :
  all_space pad1 = true → all_space pad2 = true →
  _to_int (Some (pad1 ++ v ++ pad2)) d = _to_int (Some v) d.
Proof. intros H1 H2. unfold _to_int. by rewrite (strip_pad _ _ _ H1 H2). Qed.

(** Claim C10: both helpers strip the value first.  A value with
    whitespace around it is coerced as the value without it, by
    [_to_bool] for every boolean field and by [_to_int] for [THREADS];
    [" TRUE "] is true and [" 42 "] is 42. *)
Theorem padding_ignored (h : Host) (env_file : option string) :
  (∀ pad1 v pad2 d, all_space pad1 = true → all_space pad2 = true →
     _to_bool (Some (pad1 ++ v ++ pad2)) d = _to_bool (Some v) d)
  ∧ (∀ pad1 v pad2 d, all_space pad1 = true → all_space pad2 = true →
       _to_int (Some (pad1 ++ v ++ pad2)) d = _to_int (Some v) d)
  ∧ (∀ d, _to_bool (Some " TRUE ") d = true)
  ∧ (∀ d, _to_int (Some " 42 ") d = Ok 42)
  ∧ ∃ merged cfg,
      merge_sources h (resolve_path h env_file) = Ok merged
      ∧ load h env_file = Ok cfg
      ∧ Forall (λ '(key, field), ∀ pad1 v pad2,
          all_space pad1 = true → all_space pad2 = true →
          merged !! key = Some (pad1 ++ v ++ pad2) →
          field cfg = _to_bool (Some v) (field (cls h))) bool_fields
      ∧ (∀ pad1 v pad2,
          all_space pad1 = true → all_space pad2 = true →
          merged !! "THREADS" = Some (pad1 ++ v ++ pad2) →
          _to_int (Some v) (THREADS (cls h)) = Ok (THREADS cfg)).
Proof.
  split; [intros; by apply to_bool_pad |].
  split; [intros; by apply to_int_pad |].
  split; [intros d; by vm_compute |].
  split; [intros d; by vm_compute |].
  destruct (load_total h env_file) as (merged & cfg & Hm & Hc & Hl).
  destruct (coerce_fields _ _ _ _ Hc) as (Hb & _ & Ht & _).
  exists merged, cfg. split; [exact Hm |]. split; [exact Hl |]. split.
  - eapply Forall_impl; [exact Hb |].
    intros [key field] -> pad1 v pad2 H1 H2 ->. by apply to_bool_pad.
  - intros pad1 v pad2 H1 H2 Hv. rewrite Hv in Ht.
    by rewrite <- (to_int_pad pad1 v pad2 _ H1 H2).
Qed.

Lemma padding_ignored_witness :
  _to_bool (Some (" " ++ "Yes" ++ "  ")) false = _to_bool (Some "Yes") false
  ∧ _to_int (Some (" " ++ "-7" ++ " ")) 8 = _to_int (Some "-7") 8
  ∧ ∃ cfg, load host_conflict None = Ok cfg ∧ THREADS cfg = 42.
Proof.
  destruct (padding_ignored host_conflict None)
    as (Hbool & Hint & _ & H42 & merged & cfg & Hm & Hl & _ & Ht).
  split; [exact (Hbool " " "Yes" "  " false eq_refl eq_refl) |].
  split; [exact (Hint " " "-7" " " 8 eq_refl eq_refl) |].
  exists cfg. split; [exact Hl |].
  assert (merged !! "THREADS" = Some (" " ++ "42" ++ " ")) as Hk.
  { rewrite (merge_sources_parsed host_conflict
               (resolve_path host_conflict None) _ _
               eq_refl eq_refl eq_refl) in Hm.
    injection Hm as <-. by vm_compute. }
  specialize (Ht " " "42" " " eq_refl eq_refl Hk).
  vm_compute in Ht. by injection Ht.
Defined.

(** * Further properties of the loader *)

(** ** String fields *)

(** Property X1: every string field is the merged value of its key as
    it is, empty or padded values included, and the class default of that
    same field when the key is absent. *)
Theorem str_fields_verbatim (h : Host) (env_file : option string) :
  ∃ merged cfg,
    merge_sources h (resolve_path h env_file) = Ok merged
    ∧ load h env_file = Ok cfg
    ∧ Forall (λ '(key, field),
        (∀ v, merged !! key = Some v → field cfg = v)
        ∧ (merged !! key = None → field cfg = field (cls h))) str_fields.
Proof.
  destruct (load_total h env_file) as (merged & cfg & Hm & Hc & Hl).
  destruct (coerce_fields _ _ _ _ Hc) as (_ & Hs & _).
  exists merged, cfg. split; [exact Hm |]. split; [exact Hl |].
  eapply Forall_impl; [exact Hs |]. intros [key field] ->. unfold get.
  split; [by intros v -> | by intros ->].
Qed.

(** ** The file layer *)

(** Property X2: a key the file gives a value for and the environment
    does not set has the file's value in the merged mapping, and the
    field read from it is coerced from the file's value. *)
Theorem file_value_used (h : Host) (env_file : option string)
    (parse : string → Exc (gmap string (option string)))
    (file_vals : gmap string (option string)) (k v : string) :
  dotenv_values h = Some parse →
  isfile h (resolve_path h env_file) = true →
  parse (resolve_path h env_file) = Ok file_vals →
  file_vals !! k = Some (Some v) →
  environ h !! k = None →
  ∃ merged cfg,
    merge_sources h (resolve_path h env_file) = Ok merged
    ∧ load h env_file = Ok cfg
    ∧ merged !! k = Some v
    ∧ Forall (λ '(key, field),
         key = k → field cfg = _to_bool (Some v) (field (cls h))) bool_fields
    ∧ Forall (λ '(key, field), key = k → field cfg = v) str_fields
    ∧ (k = "THREADS" → _to_int (Some v) (THREADS (cls h)) = Ok (THREADS cfg)).
Proof.
  intros Hd Hf Hp Hk He.
  destruct (load_total h env_file) as (merged & cfg & Hm & Hc & Hl).
  destruct (coerce_fields _ _ _ _ Hc) as (Hb & Hs & Ht & _).
  assert (merged !! k = Some v) as Hmk.
  { rewrite (merge_sources_parsed _ _ _ _ Hd Hf Hp) in Hm.
    injection Hm as <-. rewrite lookup_union_r by exact He.
    by rewrite lookup_omap, Hk. }
  exists merged, cfg. repeat split; try done.
  - eapply Forall_impl; [exact Hb |]. intros [key field] -> ->.
    by rewrite Hmk.
  - eapply Forall_impl; [exact Hs |]. intros [key field] -> ->.
    unfold get. by rewrite Hmk.
  - intros ->. by rewrite Hmk in Ht.
Qed.

Lemma file_value_used_witness :
  ∃ cfg, load host_conflict None = Ok cfg
    ∧ _to_int (Some " 42 ") (THREADS (cls host_conflict))
      = Ok (THREADS cfg).
Proof.
  destruct (file_value_used host_conflict None
              (λ _, Ok (<["WORKDIR" := Some "from_file"]>
                        (<["DEVICE" := None]>
                        (<["THREADS" := Some " 42 "]> ∅))))
              _ "THREADS" " 42 " eq_refl eq_refl eq_refl)
    as (merged & cfg & _ & Hl & _ & _ & _ & Ht); [by vm_compute .. |].
  exists cfg. split; [exact Hl | exact (Ht eq_refl)].
Defined.

(** ** What the record depends on *)

(** [coerce] reads the merged mapping at the keys of the fields only. *)
Lemma coerce_ext (h : Host) (m1 m2 : gmap string string) (p : string) :
  Forall (λ key, m1 !! key = m2 !! key) field_keys →
  coerce h m1 p = coerce h m2 p.
Proof.
  unfold field_keys. rewrite !Forall_cons. intros H. destruct_and!.
  unfold coerce, get.
  repeat match goal with
         | Heq : m1 !! _ = m2 !! _ |- _ => rewrite Heq; clear Heq
         end.
  reflexivity.
Qed.

Lemma coerce_host (h h' : Host) (m : gmap string string) (p : string) :
  cpu_count h' = cpu_count h → coerce h' m p = coerce h m p.
Proof.
  intros Hc. unfold coerce, cls, default_threads. by rewrite Hc.
Qed.



(** Property X4: an entry of the file whose key is no key of a field
    changes nothing.  The key [ENV_FILE] is one of them: the file cannot
    name another file to load, nor change the [ENV_FILE] field. *)
Theorem load_ignores_other_entries (h : Host) (env_file : option string)
    (parse : string → Exc (gmap string (option string)))
    (file_vals : gmap string (option string))
    (k : string) (v : option string) :
  dotenv_values h = Some parse →
  parse (resolve_path h env_file) = Ok file_vals →
  k ∉ field_keys →
  load (with_dotenv h (Some (λ _, Ok (<[k := v]> file_vals)))) env_file
  = load h env_file.
Proof.
  intros Hd Hp Hk.
  set (h' := with_dotenv h (Some (λ _, Ok (<[k := v]> file_vals)))).
  unfold load. change (resolve_path h' env_file) with (resolve_path h env_file).
  rewrite !merge_sources_closed, !bind_Ok.
  rewrite (coerce_host h h' _ _ eq_refl). apply coerce_ext.
  apply Forall_forall. intros key Hin.
  assert (k ≠ key) as Hne by (intros ->; contradiction).
  rewrite !lookup_union. f_equal.
  unfold file_part. rewrite Hd, Hp. simpl.
  destruct (isfile h (resolve_path h env_file)); [| done].
  by rewrite !lookup_omap, lookup_insert_ne.
Qed.

Lemma load_ignores_other_entries_witness :
  load (with_dotenv host_conflict
          (Some (λ _, Ok (<["ENV_FILE" := Some "elsewhere.env"]>
                          (<["WORKDIR" := Some "from_file"]>
                          (<["DEVICE" := None]>
                          (<["THREADS" := Some " 42 "]> ∅))))))) None
  = load host_conflict None.
Proof.
  apply (load_ignores_other_entries host_conflict None
           (λ _, Ok (<["WORKDIR" := Some "from_file"]>
                     (<["DEVICE" := None]>
                     (<["THREADS" := Some " 42 "]> ∅))))
           _ "ENV_FILE" (Some "elsewhere.env") eq_refl eq_refl).
  apply (bool_decide_unpack _). by vm_compute.
Defined.



(** ** Reading the script environment back *)

(** A flag written by [to_script_env] is read back by [_to_bool]. *)
Lemma to_bool_rendered (b d : bool) :
  _to_bool (Some (if b then "true" else "false")) d = b.
Proof. destruct b, d; by vm_compute. Qed.

Lemma decimal_numeral_literal (n : Z) : base10_literal (decimal_numeral n) n.
Proof.
  destruct (int_literal_inv _ _ (int_literal_numeral n))
    as (sign & sg & body & ds & Hs & Hsign & Hbody & Hn).
  pose proof (base10_literal_intro "" sign sg body ds ""
                eq_refl eq_refl Hsign Hbody) as H.
  rewrite string_app_nil, string_app_empty_r, <- Hs, <- Hn in H. exact H.
Qed.

(** A number written by [str] is read back by [_to_int]: what [str]
    returns is within the limit of [int]. *)
Lemma to_int_py_str (n d : Z) (s : string) :
  py_str n = Ok s → _to_int (Some s) d = Ok n.
Proof.
  intros [-> Hcap]%py_str_ok.
  apply to_int_literal; [apply decimal_numeral_literal | exact Hcap].
Qed.

Lemma py_str_inj (n m : Z) (s : string) :
  py_str n = Ok s → py_str m = Ok s → n = m.
Proof.
  intros Hn%py_int_py_str Hm%py_int_py_str. rewrite Hn in Hm. by injection Hm.
Qed.

Lemma decimal_numeral_inj (n m : Z) :
  decimal_numeral n = decimal_numeral m → n = m.
Proof.
  intros H. pose proof (int_literal_numeral n) as Hn.
  rewrite H, int_literal_numeral in Hn. by injection Hn.
Qed.

(** Property X6: what [to_script_env] writes, [load] reads back.  When
    [to_script_env] returns the script environment of a record, then in
    an environment that holds it [load] returns a record with the same
    seven exported fields, and [to_script_env] of that record returns
    the same script environment, whatever the file and the other
    variables give.  A record whose [THREADS] is too long for [str] has
    no script environment, and the property says nothing of it. *)
Theorem script_env_reloads (h : Host) (env_file : option string)
    (cfg0 : BotConfig) (env : gmap string string) :
  to_script_env cfg0 = Ok env →
  env ⊆ environ h →
  ∃ cfg,
    load h env_file = Ok cfg
    ∧ AXION_REMOTE_URL cfg = AXION_REMOTE_URL cfg0
    ∧ AXION_BRANCH cfg = AXION_BRANCH cfg0
    ∧ WORKDIR cfg = WORKDIR cfg0
    ∧ THREADS cfg = THREADS cfg0
    ∧ WITH_MIUI_CAM cfg = WITH_MIUI_CAM cfg0
    ∧ APPLY_WPA_PATCHES cfg = APPLY_WPA_PATCHES cfg0
    ∧ BUILD_VOLUME_DEVICE cfg = BUILD_VOLUME_DEVICE cfg0
    ∧ to_script_env cfg = Ok env.
Proof.
  intros Henv Hsub.
  destruct (load_total h env_file) as (merged & cfg & Hm & Hc & Hl).
  destruct (coerce_fields _ _ _ _ Hc) as (Hb & Hs & Ht & _).
  assert (∀ key val, env !! key = Some val →
            merged !! key = Some val) as Hget.
  { intros key val Hk. apply (merge_sources_environ _ _ _ _ _ Hm).
    by apply (lookup_weaken _ _ _ _ Hk). }
  destruct (script_env_lookups _ _ Henv)
    as (Hurl & Hbranch & Hwork & Hthr & Hcam & Hwpa & Hvol).
  apply Hget in Hurl, Hbranch, Hwork, Hthr, Hcam, Hwpa, Hvol.
  pose proof Henv as [Hcap Heq]%to_script_env_inv.
  unfold bool_fields in Hb. unfold str_fields in Hs.
  rewrite !Forall_cons in Hb. rewrite !Forall_cons in Hs.
  destruct Hb as (_ & _ & _ & _ & Hb1 & Hb2 & _).
  destruct Hs as (Hs1 & Hs2 & Hs3 & Hs4 & _).
  cbv beta iota in Hb1, Hb2, Hs1, Hs2, Hs3, Hs4. unfold get in *.
  rewrite Hcam, to_bool_rendered in Hb1.
  rewrite Hwpa, to_bool_rendered in Hb2.
  rewrite Hurl in Hs1. rewrite Hbranch in Hs2.
  rewrite Hwork in Hs3. rewrite Hvol in Hs4. simpl in Hs1, Hs2, Hs3, Hs4.
  rewrite Hthr in Ht.
  rewrite (to_int_py_str (THREADS cfg0) _ (decimal_numeral (THREADS cfg0)))
    in Ht by (apply py_str_ok; by split).
  injection Ht as Ht.
  exists cfg. split; [exact Hl |]. repeat split; try done.
  apply to_script_env_inv. rewrite <- Ht. split; [exact Hcap |].
  by rewrite Hs1, Hs2, Hs3, Hs4, Hb1, Hb2.
Qed.

Lemma script_env_reloads_witness :
  ∃ env cfg,
    to_script_env (cls host_bare) = Ok env
    ∧ load host_script_env None = Ok cfg
    ∧ THREADS cfg = 8
    ∧ to_script_env cfg = Ok env.
Proof.
  assert (decimal_digits (THREADS (cls host_bare)) ≤ int_max_str_digits)
    as Hcap by (by vm_compute).
  pose proof (proj2 (to_script_env_inv (cls host_bare) _)
                (conj Hcap eq_refl)) as Henv.
  assert (environ host_script_env = _) as Esub
    by (unfold host_script_env; cbn [environ]; rewrite Henv; reflexivity).
  destruct (script_env_reloads host_script_env None (cls host_bare) _ Henv)
    as (cfg & Hl & _ & _ & _ & Ht & _ & _ & _ & He);
    [by rewrite Esub |].
  eexists _, cfg. split; [exact Henv |].
  split; [exact Hl |]. split; [exact Ht | exact He].
Defined.

(** Property X7: the script environment carries the seven exported
    fields and nothing else of the record.  When [to_script_env] returns
    the script environment of a record, it returns the same for a second
    record exactly when the two agree on those seven fields: the
    rendering loses nothing of them, and no other field, the bot token
    among them, shows in it. *)
Theorem script_env_determines (c1 c2 : BotConfig)
    (env : gmap string string) :
  to_script_env c1 = Ok env →
  to_script_env c2 = Ok env ↔
  AXION_REMOTE_URL c1 = AXION_REMOTE_URL c2
  ∧ AXION_BRANCH c1 = AXION_BRANCH c2
  ∧ WORKDIR c1 = WORKDIR c2
  ∧ THREADS c1 = THREADS c2
  ∧ WITH_MIUI_CAM c1 = WITH_MIUI_CAM c2
  ∧ APPLY_WPA_PATCHES c1 = APPLY_WPA_PATCHES c2
  ∧ BUILD_VOLUME_DEVICE c1 = BUILD_VOLUME_DEVICE c2.
Proof.
  intros H1. split.
  - intros H2.
    destruct (script_env_lookups _ _ H1)
      as (U1 & B1 & W1 & T1 & M1 & A1 & V1).
    destruct (script_env_lookups _ _ H2)
      as (U2 & B2 & W2 & T2 & M2 & A2 & V2).
    rewrite U1 in U2. rewrite B1 in B2. rewrite W1 in W2.
    rewrite T1 in T2. rewrite M1 in M2. rewrite A1 in A2. rewrite V1 in V2.
    injection U2 as EU. injection B2 as EB. injection W2 as EW.
    injection T2 as ET%decimal_numeral_inj. injection V2 as EV.
    injection M2 as EM. injection A2 as EA.
    repeat split; try done.
    + by destruct (WITH_MIUI_CAM c1), (WITH_MIUI_CAM c2).
    + by destruct (APPLY_WPA_PATCHES c1), (APPLY_WPA_PATCHES c2).
  - intros (EU & EB & EW & ET & EM & EA & EV).
    apply to_script_env_inv in H1 as [Hcap ->]. apply to_script_env_inv.
    split; [by rewrite <- ET |].
    by rewrite EU, EB, EW, ET, EM, EA, EV.
Qed.

Lemma script_env_determines_witness :
  ∃ env,
    to_script_env (cls host_bare) = Ok env
    ∧ CONFIG_BOT_TOKEN (with_bot_token (cls host_bare) "secret") = "secret"
    ∧ to_script_env (with_bot_token (cls host_bare) "secret") = Ok env
    ∧ ¬ to_script_env (with_threads (cls host_bare) 9) = Ok env.
Proof.
  assert (decimal_digits (THREADS (cls host_bare)) ≤ int_max_str_digits)
    as Hcap by (by vm_compute).
  pose proof (proj2 (to_script_env_inv (cls host_bare) _)
                (conj Hcap eq_refl)) as Henv.
  eexists. split; [exact Henv |]. split; [reflexivity |]. split.
  - apply (script_env_determines (cls host_bare) _ _ Henv). by repeat split.
  - intros H.
    apply (script_env_determines (cls host_bare) _ _ Henv) in H
      as (_ & _ & _ & Ht & _).
    discriminate Ht.
Defined.

(** ** The path and the file behind it *)

(** Property X8: the path [load] settles on is an existing file exactly
    when the path first chosen or [".env_xaga"] is one; when it is not,
    no file is read and the merged mapping is the environment. *)
Theorem resolved_path_exists (h : Host) (env_file : option string) :
  isfile h (resolve_path h env_file)
  = isfile h (first_path h env_file) || isfile h ".env_xaga"
  ∧ (isfile h (resolve_path h env_file) = false →
       merge_sources h (resolve_path h env_file) = Ok (environ h)).
Proof.
  split.
  - unfold resolve_path.
    destruct (isfile h (first_path h env_file)) eqn:Hf;
      destruct (isfile h ".env_xaga") eqn:Hx; simpl; by rewrite ?Hf, ?Hx.
  - intros Hf. apply merge_sources_unusable. right. by left.
Qed.

Lemma first_path_nonempty (h : Host) (env_file : option string) :
  first_path h env_file ≠ "".
Proof.
  unfold first_path, or_else.
  destruct env_file as [s|]; [destruct (String.eqb s "") eqn:Es |];
    (destruct (environ h !! "ENV_FILE") as [e|];
     [destruct (String.eqb e "") eqn:Ee |]);
    simpl; rewrite ?Es, ?Ee; simpl; try done; by apply eqb_neq.
Qed.

Lemma resolve_path_nonempty (h : Host) (env_file : option string) :
  resolve_path h env_file ≠ "".
Proof.
  unfold resolve_path. destruct (_ && _); [done |].
  apply first_path_nonempty.
Qed.

(** Resolving the resolved path gives it again. *)
Lemma resolve_path_idem (h : Host) (env_file : option string) :
  resolve_path h (Some (resolve_path h env_file)) = resolve_path h env_file.
Proof.
  pose proof (resolve_path_nonempty h env_file) as Hne.
  unfold resolve_path at 1. rewrite (first_path_explicit _ _ Hne).
  unfold resolve_path in *.
  destruct (isfile h (first_path h env_file)) eqn:Hf;
    destruct (isfile h ".env_xaga") eqn:Hx; simpl; by rewrite ?Hf, ?Hx.
Qed.

(** Property X9: the [ENV_FILE] field is enough to load the same record
    again.  It is never empty, and [load] called with it as the argument
    returns the record it came from. *)
Theorem reload_from_env_file (h : Host) (env_file : option string) :
  ∃ cfg,
    load h env_file = Ok cfg
    ∧ ENV_FILE cfg ≠ ""
    ∧ load h (Some (ENV_FILE cfg)) = Ok cfg.
Proof.
  destruct (load_total h env_file) as (merged & cfg & Hm & Hc & Hl).
  destruct (coerce_fields _ _ _ _ Hc) as (_ & _ & _ & He).
  exists cfg. split; [exact Hl |]. rewrite He.
  split; [apply resolve_path_nonempty |].
  unfold load in *. by rewrite resolve_path_idem.
Qed.

(** ** Values that cannot be read *)

(** Property X10: the sources are merged before any value is read, so a
    variable of the environment that cannot be read hides a good value
    of the file: a boolean field whose variable is no word of either set
    takes its class default, and [THREADS] with a variable that is no
    integer takes its class default, whatever the file gives. *)
Theorem unreadable_variable_masks_file (h : Host)
    (env_file : option string) (k v : string) :
  environ h !! k = Some v →
  ∃ cfg,
    load h env_file = Ok cfg
    ∧ (¬ matches_padded v truthy → ¬ matches_padded v falsy →
         Forall (λ '(key, field),
           key = k → field cfg = field (cls h)) bool_fields)
    ∧ (k = "THREADS" → (∀ n, ¬ base10_literal v n) →
         THREADS cfg = THREADS (cls h)).
Proof.
  intros Hk.
  destruct (load_total h env_file) as (merged & cfg & Hm & Hc & Hl).
  destruct (coerce_fields _ _ _ _ Hc) as (Hb & _ & Ht & _).
  pose proof (merge_sources_environ _ _ _ _ _ Hm Hk) as Hmk.
  exists cfg. split; [exact Hl |]. split.
  - intros Hnt Hnf. eapply Forall_impl; [exact Hb |].
    intros [key field] -> ->. rewrite Hmk. by apply to_bool_other.
  - intros -> Hn. rewrite Hmk, (to_int_not_literal _ _ Hn) in Ht.
    by injection Ht.
Qed.

Lemma unreadable_variable_masks_file_witness :
  (∃ parse file_vals, dotenv_values host_masked = Some parse
     ∧ parse ".env" = Ok file_vals
     ∧ file_vals !! "RUN_BUILD" = Some (Some "true")
     ∧ file_vals !! "THREADS" = Some (Some "16"))
  ∧ ∃ cfg, load host_masked None = Ok cfg
      ∧ RUN_BUILD cfg = false ∧ THREADS cfg = 4.
Proof.
  split.
  - eexists _, _. split; [reflexivity |]. split; [reflexivity |].
    split; by vm_compute.
  - destruct (unreadable_variable_masks_file host_masked None
                "RUN_BUILD" "maybe") as (cfg & Hl & Hb & _);
      [by vm_compute |].
    destruct (unreadable_variable_masks_file host_masked None
                "THREADS" "many") as (cfg' & Hl' & _ & Ht);
      [by vm_compute |].
    rewrite Hl in Hl'. injection Hl' as <-.
    exists cfg. split; [exact Hl |]. split.
    + assert (∀ words, words = truthy ∨ words = falsy →
                ¬ matches_padded "maybe" words) as Hno.
      { intros words Hw H. apply (matches_padded_iff _ _ Hw) in H.
        destruct Hw as [-> | ->];
          [apply truthy_words in H | apply falsy_words in H];
          destruct H as [H | [H | [H | [H | H]]]]; discriminate H. }
      specialize (Hb (Hno _ (or_introl eq_refl)) (Hno _ (or_intror eq_refl))).
      unfold bool_fields in Hb. rewrite !Forall_cons in Hb.
      destruct Hb as (_ & _ & Hrun & _). exact (Hrun eq_refl).
    + apply (Ht eq_refl). intros n H%int_literal_strip. discriminate H.
Defined.

(** Property X11: the thread count [load] falls back on is at least 1
    on a host whose CPU count is not negative: with [THREADS] absent or
    no integer, the record never asks for zero threads. *)
Theorem fallback_threads_positive (h : Host) (env_file : option string) :
  (∀ n, cpu_count h = Some n → 0 ≤ n) →
  ∃ merged cfg,
    merge_sources h (resolve_path h env_file) = Ok merged
    ∧ load h env_file = Ok cfg
    ∧ (merged !! "THREADS" = None → 1 ≤ THREADS cfg)
    ∧ (∀ v, merged !! "THREADS" = Some v → (∀ n, ¬ base10_literal v n) →
         1 ≤ THREADS cfg).
Proof.
  intros Hcpu.
  assert (1 ≤ THREADS (cls h)) as Hpos.
  { simpl. unfold default_threads.
    destruct (cpu_count h) as [n|] eqn:Hc; [| lia].
    specialize (Hcpu n eq_refl). destruct (Z.eqb_spec n 0); lia. }
  destruct (load_total h env_file) as (merged & cfg & Hm & Hc & Hl).
  destruct (coerce_fields _ _ _ _ Hc) as (_ & _ & Ht & _).
  exists merged, cfg. split; [exact Hm |]. split; [exact Hl |]. split.
  - intros Hv. rewrite Hv in Ht. injection Ht as <-. exact Hpos.
  - intros v Hv Hn. rewrite Hv, (to_int_not_literal _ _ Hn) in Ht.
    injection Ht as <-. exact Hpos.
Qed.

Lemma fallback_threads_positive_witness :
  ∃ cfg, load host_bare None = Ok cfg ∧ 1 ≤ THREADS cfg.
Proof.
  destruct (fallback_threads_positive host_bare None)
    as (merged & cfg & Hm & Hl & Hnone & _); [discriminate |].
  exists cfg. split; [exact Hl |]. apply Hnone.
  rewrite merge_sources_unusable in Hm by (by left).
  by injection Hm as <-.
Defined.

(** ** The two views of a record *)

(** Property X12: [to_script_env] and [as_dict] show the same record.
    Every entry of the script environment is a field [as_dict] lists,
    written as a string: a string as it is, the integer by [str], a flag
    as ["true"] or ["false"].  [as_dict] lists every field once, and two
    records with the same [as_dict] are the same record. *)
Theorem script_env_within_as_dict (self : BotConfig) :
  (∀ env k s, to_script_env self = Ok env → env !! k = Some s →
     ∃ v, (k, v) ∈ as_dict self
       ∧ Ok s = match v with
                | VStr s' => Ok s'
                | VInt n => py_str n
                | VBool b => Ok (if b then "true" else "false")
                | VNone => Ok ""
                end)
  ∧ NoDup (as_dict self).*1
  ∧ (∀ other, as_dict self = as_dict other → self = other).
Proof.
  split; [| split].
  - intros env k s Henv Hk.
    destruct (script_env_lookups _ _ Henv) as (U & B & W & T & M & A & V).
    assert (is_Some (env !! k)) as Hin by (by exists s).
    apply (script_env_dom _ _ _ Henv) in Hin.
    assert (py_str (THREADS self) = Ok (decimal_numeral (THREADS self)))
      as Hstr.
    { apply to_script_env_inv in Henv as [Hcap _]. by apply py_str_ok. }
    destruct Hin as [-> | [-> | [-> | [-> | [-> | [-> | ->]]]]]];
      match goal with
      | H : env !! ?key = Some _ |- _ =>
          rewrite H in Hk; clear - Hk Hstr
      end;
      injection Hk as <-; eexists;
      (split;
       [unfold as_dict;
        repeat first [apply list_elem_of_here | apply list_elem_of_further]
       | first [reflexivity | symmetry; exact Hstr]]).
  - apply (bool_decide_unpack _). by vm_compute.
  - intros other H. destruct self, other. by simplify_eq/=.
Qed.

(** ** The argument and the variable [ENV_FILE] *)


